(** * NtAction: wiring of the multi-group neutron-transport objects

    A shallow embedding of [src/actions/NtAction.C] (Moltres).  The action
    receives a set of user parameters and, once per framework task, submits
    variables, kernels, boundary conditions, initial conditions and auxiliary
    objects to the host problem.  The host (factory, problem, application)
    is modelled by the log of the calls it receives and by its restart
    flag. *)

From Stdlib Require Import NArith QArith DecimalString DecimalPos DecimalN.
From Stdlib Require Import Ascii.
From stdpp Require Import gmap strings list fin_maps.

Local Open Scope string_scope.
Local Open Scope N_scope.

(** ** Values carried by the host's parameter objects *)

(** [Real] is only stored and forwarded by the action, never computed with. *)
Abbreviation Real := Q (only parsing).

Inductive Value :=
| VBool (b : bool)
| VUInt (n : N)
| VReal (r : Real)
| VReals (rs : list Real)
| VString (s : string)
| VStrings (ss : list string)
| VEnum (e : string).

(** [InputParameters]: the valid entries of a parameter object, by name. *)
Abbreviation InputParameters := (gmap string Value) (only parsing).

Inductive Order := FIRST.
Inductive FEFamily := LAGRANGE | L2_LAGRANGE.
Record FEType := { order : Order; family : FEFamily }.

Definition enum_to_string_order (o : Order) : string :=
  match o with FIRST => "FIRST" end.
Definition enum_to_string_family (f : FEFamily) : string :=
  match f with LAGRANGE => "LAGRANGE" | L2_LAGRANGE => "L2_LAGRANGE" end.

Abbreviation SubdomainID := N (only parsing).

(** ** The action's own parameters ([NtAction::validParams]) *)

(** [MooseEnum vacuum_bc_type("marshak mark milne", "marshak")] *)
Inductive VacuumBCType := marshak | mark | milne.

Definition vacuum_bc_name (t : VacuumBCType) : string :=
  match t with marshak => "marshak" | mark => "mark" | milne => "milne" end.

(** Required parameters are plain fields, parameters with a default are plain
    fields too (the default is what the user left unchanged), and optional
    parameters without default are [option]s: [isParamValid] is [is_Some].
    [block] is declared by the base class. *)
Record Config := {
  num_precursor_groups : N;
  var_name_base : string;
  temperature : list string;
  pre_concs : option (list string);
  temp_scaling : option Real;
  num_groups : N;
  use_exp_form : bool;
  jac_test : bool;
  nt_ic_function : option string;
  vacuum_boundaries : option (list string);
  vacuum_bc_type : VacuumBCType;
  create_temperature_var : bool;
  init_nts_from_file : bool;
  init_temperature_from_file : bool;
  dg_for_temperature : bool;
  eigen : bool;
  account_delayed : bool;
  sss2_input : bool;
  pre_blocks : option (list string);
  eigenvalue_scaling : Real;
  block : option (list string)
}.

Definition isParamValid {A} (p : option A) : bool :=
  match p with Some _ => true | None => false end.

(** [unsigned int]: 32 bits, [++op] wraps. *)
Definition UINT_MAX : N := 4294967295.
Definition incr (op : N) : N := (op + 1) mod 2 ^ 32.

(** [Moose::stringify] on an unsigned: its decimal digits. *)
Definition stringify (n : N) : string := NilZero.string_of_uint (N.to_uint n).

(** ** The host: calls received and restart flag *)

Inductive Call :=
| addVariable (var_type var_name : string) (params : InputParameters)
| addAuxVariable (var_name : string) (fe_type : FEType)
                 (active_subdomains : option (gset SubdomainID))
| addKernel (kernel_type name : string) (params : InputParameters)
| addAuxKernel (kernel_type name : string) (params : InputParameters)
| addBoundaryCondition (bc_type name : string) (params : InputParameters)
| addInitialCondition (ic_type name : string) (params : InputParameters)
| addVariableToCopy (dest_name source_name timestep : string).

Record Host := {
  calls : list Call;
  exodusFileRestart : bool
}.

(** ** Host calls with [mooseError]: a state monad whose error keeps the state *)

Inductive Outcome (A : Type) :=
| Done (a : A)
| MooseError (msg : string).
Arguments Done {A} a.
Arguments MooseError {A} msg.

Definition Act (A : Type) : Type := Host -> Host * Outcome A.

#[export] Instance Act_ret : MRet Act := fun A a h => (h, Done a).
#[export] Instance Act_bind : MBind Act := fun A B f m h =>
  match m h with
  | (h', Done a) => f a h'
  | (h', MooseError msg) => (h', MooseError msg)
  end.

Definition mooseError {A} (msg : string) : Act A := fun h => (h, MooseError msg).

Definition submit (c : Call) : Act unit := fun h =>
  ({| calls := calls h ++ [c]; exodusFileRestart := exodusFileRestart h |}, Done tt).

Definition setExodusFileRestart (b : bool) : Act unit := fun h =>
  ({| calls := calls h; exodusFileRestart := b |}, Done tt).

Definition when (b : bool) (m : Act unit) : Act unit :=
  if b then m else mret tt.

(** [params.set<T>(name) = v] and its guarded form *)
Definition set (name : string) (v : Value) (p : gmap string Value) : gmap string Value :=
  <[name := v]> p.

Definition set_if_valid {A} (name : string) (mk : A -> Value) (o : option A)
    (p : gmap string Value) : gmap string Value :=
  match o with Some a => set name (mk a) p | None => p end.

(** [parameters()]: the action's own parameter object. *)
Definition parameters (c : Config) : gmap string Value :=
  set "num_precursor_groups" (VUInt (num_precursor_groups c))
  (set "var_name_base" (VString (var_name_base c))
  (set "temperature" (VStrings (temperature c))
  (set_if_valid "pre_concs" VStrings (pre_concs c)
  (set_if_valid "temp_scaling" VReal (temp_scaling c)
  (set "num_groups" (VUInt (num_groups c))
  (set "use_exp_form" (VBool (use_exp_form c))
  (set "jac_test" (VBool (jac_test c))
  (set_if_valid "nt_ic_function" VString (nt_ic_function c)
  (set_if_valid "vacuum_boundaries" VStrings (vacuum_boundaries c)
  (set "vacuum_bc_type" (VEnum (vacuum_bc_name (vacuum_bc_type c)))
  (set "create_temperature_var" (VBool (create_temperature_var c))
  (set "init_nts_from_file" (VBool (init_nts_from_file c))
  (set "init_temperature_from_file" (VBool (init_temperature_from_file c))
  (set "dg_for_temperature" (VBool (dg_for_temperature c))
  (set "eigen" (VBool (eigen c))
  (set "account_delayed" (VBool (account_delayed c))
  (set "sss2_input" (VBool (sss2_input c))
  (set_if_valid "pre_blocks" VStrings (pre_blocks c)
  (set "eigenvalue_scaling" (VReal (eigenvalue_scaling c))
  (set_if_valid "block" VStrings (block c) ∅)))))))))))))))))))).

(** ** The constructor (lines 80-88) *)

Definition ConfigurationError : string :=
  "If we're accounting for delayed neutrons, then you must supply 'pre_concs'.".

(** The members [_num_precursor_groups], [_var_name_base] and [_num_groups]
    are copies of the parameters of the same name; the object is its
    parameters. *)
Definition NtAction (params : Config) : Act Config :=
  if negb (isParamValid (pre_concs params)) && account_delayed params
  then mooseError ConfigurationError
  else mret params.

Definition _num_precursor_groups (this : Config) : N := num_precursor_groups this.
Definition _var_name_base (this : Config) : string := var_name_base this.
Definition _num_groups (this : Config) : N := num_groups this.

Definition ConflictingOptionError : string :=
  "jac_test creates RandomICs. So are you sure you want to pass an initial condition function?".

(** ** Loops over the groups *)

(** [for (unsigned int op = 1; op <= n; ++op) body(op)], started at [op].
    [None]: the loop has not ended within [fuel] iterations. *)
Fixpoint for_op (fuel : nat) (op n : N) (body : N -> Act unit) (h : Host)
    : option (Host * Outcome unit) :=
  match fuel with
  | O => None
  | S fuel' =>
      if op <=? n then
        match body op h with
        | (h', Done _) => for_op fuel' (incr op) n body h'
        | (h', MooseError msg) => Some (h', MooseError msg)
        end
      else Some (h, Done tt)
  end.

(** The first loop of [act] (lines 93-95): [all_var_names.push_back]. *)
Fixpoint push_names (fuel : nat) (op n : N) (base : string) (acc : list string)
    : option (list string) :=
  match fuel with
  | O => None
  | S fuel' =>
      if op <=? n then push_names fuel' (incr op) n base (acc ++ [base ++ stringify op])
      else Some acc
  end.

(** The groups [first, first + count): what the loops run through when the
    counter does not wrap. *)
Definition groups_from (first : N) (count : nat) : list N :=
  N.of_nat <$> seq (N.to_nat first) count.

Definition groups (n : N) : list N := groups_from 1 (N.to_nat n).

(** Running a body over a list of groups, stopping at the first error. *)
Fixpoint run_groups (body : N -> Act unit) (ops : list N) : Act unit :=
  match ops with
  | [] => mret tt
  | op :: ops' => body op ;; run_groups body ops'
  end.

(** ** Sample host and configurations, used to evaluate the model *)

Definition sample_getValidParams (kind : string) : gmap string Value := ∅.

Definition sample_applyParameter (p : gmap string Value) (name : string)
    (v : option Value) : gmap string Value :=
  match v with Some x => set name x p | None => p end.

Definition sample_variableType (fe : FEType) : string := "MooseVariable".

(** Two groups named [group1], [group2]; the arguments are the parameters
    the statements below vary. *)
Definition make_config (groups : N) (exp_form jac eigenvalue delayed : bool)
    (ic_function : option string) (boundaries precursors : option (list string))
    (create_temp nts_from_file temp_from_file : bool) : Config := {|
  num_precursor_groups := 6;
  var_name_base := "group";
  temperature := ["temp"];
  pre_concs := precursors;
  temp_scaling := None;
  num_groups := groups;
  use_exp_form := exp_form;
  jac_test := jac;
  nt_ic_function := ic_function;
  vacuum_boundaries := boundaries;
  vacuum_bc_type := marshak;
  create_temperature_var := create_temp;
  init_nts_from_file := nts_from_file;
  init_temperature_from_file := temp_from_file;
  dg_for_temperature := true;
  eigen := eigenvalue;
  account_delayed := delayed;
  sss2_input := true;
  pre_blocks := None;
  eigenvalue_scaling := 1;
  block := None
|}.

Definition sample_config : Config :=
  make_config 2 false false false false None None None true false false.

Definition eigen_config : Config :=
  make_config 2 false false true false None None None true false false.

Definition one_group_config : Config :=
  make_config 1 false false false false None None None true false false.

Definition delayed_config : Config :=
  make_config 2 false false false true None None (Some ["pre1"; "pre2"]) true false false.

Definition delayed_without_pre_concs : Config :=
  make_config 2 false false false true None None None true false false.

Definition conflict_config : Config :=
  make_config 2 false true false false (Some "ic_func") None None true false false.

Definition conflict_restart_config : Config :=
  make_config 2 false true false false (Some "ic_func") None None true true false.

Definition exp_config : Config :=
  make_config 2 true false false false None None None true false false.

Definition vacuum_config : Config :=
  make_config 2 false false false false None (Some ["left"; "right"]) None true false false.

Definition restart_config : Config :=
  make_config 2 false false false false None None None true true false.

Definition temperature_restart_only_config : Config :=
  make_config 2 false false false false None None None false false true.

Definition conflict_no_group_config : Config :=
  make_config 0 false true false false (Some "ic_func") None None true false false.

Definition restart_no_group_config : Config :=
  make_config 0 false false false false None None None true true false.

Definition empty_host : Host := {| calls := []; exodusFileRestart := false |}.

(** ** [NtAction::act] and its helpers *)

(** What the action uses of its surroundings without defining it: the host
    framework's factory and parameter objects, and the base class
    [VariableNotAMooseObjectAction]. *)
Class Framework := {
  (** The factory: the parameter object of an object type, with the type's
      defaults. *)
  getValidParams : string -> gmap string Value;
  (** The host's rule for taking over one named entry of another parameter
      object: it sees the target, the name and the entry the other object
      holds under that name. *)
  applyParameter : gmap string Value -> string -> option Value -> gmap string Value;
  (** [AddVariableAction::variableType]. *)
  variableType : FEType -> string;
  (** [getSubdomainIDs] of the base class: the subdomains that the [block]
      parameter names on the mesh. *)
  getSubdomainIDs : option (list string) -> gset SubdomainID;
  (** What the base class's [addVariable] passes along with the name: the
      variable type and the parameters it builds from its own order, family
      and scaling parameters. *)
  baseVariableType : Config -> string;
  baseVariableParams : Config -> gmap string Value
}.

Section NtAction.

Context `{Framework}.

(** [InputParameters::applySpecificParameters(common, include)]: only the
    names listed in [include] are looked up in [common]. *)
Definition applySpecificParameters (p common : gmap string Value)
    (include : list string) : gmap string Value :=
  foldl (fun q name => applyParameter q name (common !! name)) p include.

(** Modelled from the spec: [VariableNotAMooseObjectAction::addVariable] of
    the base class is missing; it registers one variable under the name
    it is given. *)
Definition NtAction_addVariable (this : Config) (var_name : string) : Act unit :=
  submit (addVariable (baseVariableType this) var_name (baseVariableParams this)).

(** Lines 277-292: the parameter object that [addNtKernel] fills in.
    [use_exp_form] is a required parameter, hence valid. *)
Definition ntKernelParams (this : Config) (op : N) (var_name kernel_type : string)
    (all_var_names : list string) : gmap string Value :=
  let params := getValidParams kernel_type in
  let params := set "variable" (VString var_name) params in
  let params := set "group_number" (VUInt op) params in
  let params := set_if_valid "block" VStrings (block this) params in
  let params := set_if_valid "use_exp_form" VBool (Some (use_exp_form this)) params in
  let include := ["temperature"] in
  let params := applySpecificParameters params (parameters this) include in
  if String.eqb kernel_type "InScatter" then
    set "group_fluxes" (VStrings all_var_names)
      (set "sss2_input" (VBool (sss2_input this))
        (set "num_groups" (VUInt (_num_groups this)) params))
  else params.

(** Lines 271-295. *)
Definition addNtKernel (this : Config) (op : N) (var_name kernel_type : string)
    (all_var_names : list string) : Act unit :=
  let params := ntKernelParams this op var_name kernel_type all_var_names in
  let kernel_name := kernel_type ++ "_" ++ var_name in
  submit (addKernel kernel_type kernel_name params).

(** Lines 302-317. *)
Definition coupledFissionParams (this : Config) (op : N) (var_name : string)
    (all_var_names : list string) : gmap string Value :=
  let params := getValidParams "CoupledFissionKernel" in
  let params := set "variable" (VString var_name) params in
  let params := set "group_number" (VUInt op) params in
  let params := set_if_valid "block" VStrings (block this) params in
  let params := set_if_valid "use_exp_form" VBool (Some (use_exp_form this)) params in
  let include := ["temperature"] in
  let params := applySpecificParameters params (parameters this) include in
  let params := set "num_groups" (VUInt (_num_groups this)) params in
  let params := set "group_fluxes" (VStrings all_var_names) params in
  let params := set "account_delayed" (VBool (account_delayed this)) params in
  let params := set "eigenvalue_scaling" (VReal (eigenvalue_scaling this)) params in
  if eigen this then set "extra_vector_tags" (VStrings ["eigen"]) params
  else params.

(** Lines 297-320. *)
Definition addCoupledFissionKernel (this : Config) (op : N) (var_name : string)
    (all_var_names : list string) : Act unit :=
  let params := coupledFissionParams this op var_name all_var_names in
  let kernel_name := "CoupledFissionKernel_" ++ var_name in
  submit (addKernel "CoupledFissionKernel" kernel_name params).

(** Lines 325-335. *)
Definition delayedNeutronSourceParams (this : Config) (op : N) (var_name : string)
    : gmap string Value :=
  let params := getValidParams "DelayedNeutronSource" in
  let params := set "variable" (VString var_name) params in
  let params := set "group_number" (VUInt op) params in
  let params := set_if_valid "block" VStrings (pre_blocks this) params in
  let params := set_if_valid "use_exp_form" VBool (Some (use_exp_form this)) params in
  let include := ["temperature"; "pre_concs"] in
  let params := applySpecificParameters params (parameters this) include in
  set "num_precursor_groups" (VUInt (_num_precursor_groups this)) params.

(** Lines 322-338. *)
Definition addDelayedNeutronSource (this : Config) (op : N) (var_name : string)
    : Act unit :=
  let params := delayedNeutronSourceParams this op var_name in
  let kernel_name := "DelayedNeutronSource_" ++ var_name in
  submit (addKernel "DelayedNeutronSource" kernel_name params).

(** Lines 149-155: the parameter object of a group's vacuum boundary
    condition. *)
Definition vacuumBCParams (this : Config) (var_name : string)
    (boundaries : list string) : gmap string Value :=
  let params := getValidParams "VacuumConcBC" in
  let params := set "boundary" (VStrings boundaries) params in
  let params := set "variable" (VString var_name) params in
  let params := set_if_valid "use_exp_form" VBool (Some (use_exp_form this)) params in
  set "vacuum_bc_type" (VEnum (vacuum_bc_name (vacuum_bc_type this))) params.

(** Lines 144-159, the body of the [add_bc] branch. *)
Definition addVacuumBC (this : Config) (var_name : string) : Act unit :=
  match vacuum_boundaries this with
  | Some boundaries =>
      let params := vacuumBCParams this var_name boundaries in
      let bc_name := "VacuumConcBC_" ++ var_name in
      submit (addBoundaryCondition "VacuumConcBC" bc_name params)
  | None => mret tt
  end.

(** Lines 168-174. *)
Definition randomICParams (this : Config) (var_name : string) : gmap string Value :=
  let params := getValidParams "RandomIC" in
  let params := set "variable" (VString var_name) params in
  let params := set_if_valid "block" VStrings (block this) params in
  let params := set "min" (VReal 0) params in
  set "max" (VReal 1) params.

(** Lines 181-186. *)
Definition functionICParams (this : Config) (var_name function : string)
    : gmap string Value :=
  let params := getValidParams "FunctionIC" in
  let params := set "variable" (VString var_name) params in
  let params := set_if_valid "block" VStrings (block this) params in
  set "function" (VString function) params.

(** Lines 193-201. *)
Definition constantICParams (this : Config) (var_name : string) : gmap string Value :=
  let params := getValidParams "ConstantIC" in
  let params := set "variable" (VString var_name) params in
  let params := set_if_valid "block" VStrings (block this) params in
  if use_exp_form this then set "value" (VReal 0) params
  else set "value" (VReal 1) params.

(** Lines 163-205, the body of the [add_ic] branch. *)
Definition addNtIC (this : Config) (var_name : string) : Act unit :=
  (if jac_test this && isParamValid (nt_ic_function this)
   then mooseError ConflictingOptionError else mret tt) ;;
  if jac_test this then
    let params := randomICParams this var_name in
    let ic_name := "RandomIC_" ++ var_name in
    submit (addInitialCondition "RandomIC" ic_name params)
  else
    match nt_ic_function this with
    | Some function =>
        let params := functionICParams this var_name function in
        let ic_name := "FunctionIC_" ++ var_name in
        submit (addInitialCondition "FunctionIC" ic_name params)
    | None =>
        let params := constantICParams this var_name in
        let ic_name := "ConstantIC_" ++ var_name in
        submit (addInitialCondition "ConstantIC" ic_name params)
    end.

(** Lines 214-219: the call that registers a group's auxiliary variable. *)
Definition linAuxVariable (this : Config) (aux_var_name : string) : Call :=
  let blocks := getSubdomainIDs (block this) in
  let fe_type := {| order := FIRST; family := LAGRANGE |} in
  if decide (blocks = ∅)
  then addAuxVariable aux_var_name fe_type None
  else addAuxVariable aux_var_name fe_type (Some blocks).

(** Lines 224-229. *)
Definition densityParams (this : Config) (var_name aux_var_name : string)
    : gmap string Value :=
  let params := getValidParams "Density" in
  let params := set "variable" (VString aux_var_name) params in
  let params := set "density_log" (VStrings [var_name]) params in
  set_if_valid "block" VStrings (block this) params.

(** Lines 208-234. *)
Definition addLinAux (this : Config) (_current_task var_name : string) : Act unit :=
  let aux_var_name := var_name ++ "_lin" in
  when (String.eqb _current_task "add_aux_variable")
    (submit (linAuxVariable this aux_var_name)) ;;
  when (String.eqb _current_task "add_aux_kernel")
    (let params := densityParams this var_name aux_var_name in
     let aux_kernel_name := "Density_" ++ aux_var_name in
     submit (addAuxKernel "Density" aux_kernel_name params)).

(** Lines 98-235: one iteration of the loop over the groups. *)
Definition group_body (this : Config) (_current_task : string)
    (all_var_names : list string) (op : N) : Act unit :=
  let var_name := _var_name_base this ++ stringify op in
  when (init_nts_from_file this)
    (when (String.eqb _current_task "check_copy_nodal_vars")
       (setExodusFileRestart true) ;;
     when (String.eqb _current_task "copy_nodal_vars")
       (submit (addVariableToCopy var_name var_name "LATEST"))) ;;
  when (String.eqb _current_task "add_variable")
    (NtAction_addVariable this var_name) ;;
  when (String.eqb _current_task "add_kernel")
    (when (negb (eigen this))
       (addNtKernel this op var_name "NtTimeDerivative" all_var_names) ;;
     addNtKernel this op var_name "GroupDiffusion" all_var_names ;;
     addNtKernel this op var_name "SigmaR" all_var_names ;;
     when (negb (_num_groups this =? 1))
       (addNtKernel this op var_name "InScatter" all_var_names) ;;
     addCoupledFissionKernel this op var_name all_var_names ;;
     when (account_delayed this)
       (addDelayedNeutronSource this op var_name)) ;;
  when (String.eqb _current_task "add_bc")
    (addVacuumBC this var_name) ;;
  when (String.eqb _current_task "add_ic" && negb (init_nts_from_file this))
    (addNtIC this var_name) ;;
  when (use_exp_form this)
    (addLinAux this _current_task var_name).

(** Lines 256-266: the call that registers the temperature variable. *)
Definition temperatureVariable (this : Config) (temp_var : string) : Call :=
  let fe_type :=
    {| order := if dg_for_temperature this then FIRST else FIRST;
       family := if dg_for_temperature this then L2_LAGRANGE else LAGRANGE |} in
  let variable_type := variableType fe_type in
  let params := getValidParams variable_type in
  let params := set "order" (VEnum (enum_to_string_order (order fe_type))) params in
  let params := set "family" (VEnum (enum_to_string_family (family fe_type))) params in
  let params :=
    set "scaling"
      (VReals [match temp_scaling this with Some s => s | None => 1%Q end])
      params in
  addVariable variable_type temp_var params.

(** Lines 237-268: the temperature variable. *)
Definition temperature_part (this : Config) (_current_task : string) : Act unit :=
  when (create_temperature_var this)
    (let temp_var := "temp" in
     when (init_temperature_from_file this)
       (when (String.eqb _current_task "check_copy_nodal_vars")
          (setExodusFileRestart true) ;;
        when (String.eqb _current_task "copy_nodal_vars")
          (submit (addVariableToCopy temp_var temp_var "LATEST"))) ;;
     when (String.eqb _current_task "add_variable")
       (submit (temperatureVariable this temp_var))).

(** [NtAction::act] (lines 90-269).  [None]: one of the two loops has not
    ended within [fuel] iterations. *)
Definition act (fuel : nat) (this : Config) (_current_task : string) (h : Host)
    : option (Host * Outcome unit) :=
  match push_names fuel 1 (_num_groups this) (_var_name_base this) [] with
  | None => None
  | Some all_var_names =>
      match
        for_op fuel 1 (_num_groups this)
          (group_body this _current_task all_var_names) h
      with
      | None => None
      | Some (h', Done _) => Some (temperature_part this _current_task h')
      | Some (h', MooseError msg) => Some (h', MooseError msg)
      end
  end.

End NtAction.

(** The model run on the sample host. *)
Definition sample_framework : Framework := {|
  getValidParams := sample_getValidParams;
  applyParameter := sample_applyParameter;
  variableType := sample_variableType;
  getSubdomainIDs := fun _ => ∅;
  baseVariableType := fun _ => "MooseVariable";
  baseVariableParams := fun _ => ∅
|}.

Definition sample_act : nat -> Config -> string -> Host -> option (Host * Outcome unit) :=
  @act sample_framework.

(** ** Vocabulary of the statements *)

(** The host after it has received the calls [l]. *)
Definition submitted (h : Host) (l : list Call) : Host :=
  {| calls := calls h ++ l; exodusFileRestart := exodusFileRestart h |}.

(** [m] succeeds, submits exactly [l] and leaves the restart flag alone. *)
Definition Emits (m : Act unit) (l : list Call) : Prop :=
  forall h, m h = (submitted h l, Done tt).

(** [variableName(i) = var_name_base + decimal(i)] *)
Definition group_name (base : string) (i : N) : string := base ++ stringify i.

Definition variableName (this : Config) (i : N) : string :=
  group_name (_var_name_base this) i.

(** The content of [all_var_names] after the first loop. *)
Definition all_var_names_of (this : Config) : list string :=
  variableName this <$> groups (_num_groups this).

(** The calls a run has left with the host. *)
Definition calls_of (r : option (Host * Outcome unit)) : list Call :=
  match r with Some (h, _) => calls h | None => [] end.

Definition is_kernel_of (kernel_type : string) (c : Call) : bool :=
  match c with
  | addKernel t _ _ => String.eqb t kernel_type
  | _ => false
  end.

(** The same configuration with [eigen] replaced. *)
Definition with_eigen (b : bool) (c : Config) : Config := {|
  num_precursor_groups := num_precursor_groups c;
  var_name_base := var_name_base c;
  temperature := temperature c;
  pre_concs := pre_concs c;
  temp_scaling := temp_scaling c;
  num_groups := num_groups c;
  use_exp_form := use_exp_form c;
  jac_test := jac_test c;
  nt_ic_function := nt_ic_function c;
  vacuum_boundaries := vacuum_boundaries c;
  vacuum_bc_type := vacuum_bc_type c;
  create_temperature_var := create_temperature_var c;
  init_nts_from_file := init_nts_from_file c;
  init_temperature_from_file := init_temperature_from_file c;
  dg_for_temperature := dg_for_temperature c;
  eigen := b;
  account_delayed := account_delayed c;
  sss2_input := sss2_input c;
  pre_blocks := pre_blocks c;
  eigenvalue_scaling := eigenvalue_scaling c;
  block := block c
|}.

(** What becomes of a call of the transient run in the eigenvalue run: the
    time derivative is gone, the fission kernel carries the [eigen] vector
    tag, every other call is the same. *)
Definition eigen_view (c : Call) : list Call :=
  match c with
  | addKernel kernel_type name params =>
      if String.eqb kernel_type "NtTimeDerivative" then []
      else if String.eqb kernel_type "CoupledFissionKernel" then
        [addKernel kernel_type name (set "extra_vector_tags" (VStrings ["eigen"]) params)]
      else [c]
  | _ => [c]
  end.

(** The kind of initial condition the parameters select. *)
Definition ic_kind (this : Config) : string :=
  if jac_test this then "RandomIC"
  else if isParamValid (nt_ic_function this) then "FunctionIC"
  else "ConstantIC".

(** Whether task [check_copy_nodal_vars] reaches a call of
    [setExodusFileRestart]. *)
Definition restart_signalled (this : Config) : bool :=
  (init_nts_from_file this && (1 <=? _num_groups this)) ||
  (create_temperature_var this && init_temperature_from_file this).

Section Vocabulary.

Context `{Framework}.

(** The kernels of one group, in the order of lines 127-141. *)
Definition kernel_calls (this : Config) (all_var_names : list string) (op : N)
    : list Call :=
  let var_name := variableName this op in
  let nt kernel_type :=
    addKernel kernel_type (kernel_type ++ "_" ++ var_name)
              (ntKernelParams this op var_name kernel_type all_var_names) in
  ((if eigen this then [] else [nt "NtTimeDerivative"]) ++
   [nt "GroupDiffusion"; nt "SigmaR"] ++
   (if _num_groups this =? 1 then [] else [nt "InScatter"]) ++
   [addKernel "CoupledFissionKernel" ("CoupledFissionKernel_" ++ var_name)
              (coupledFissionParams this op var_name all_var_names)] ++
   (if account_delayed this
    then [addKernel "DelayedNeutronSource" ("DelayedNeutronSource_" ++ var_name)
                    (delayedNeutronSourceParams this op var_name)]
    else []))%list.

End Vocabulary.

(** The host after [setExodusFileRestart(true)] has been called, if [b]. *)
Definition signal (b : bool) (h : Host) : Host :=
  if b then {| calls := calls h; exodusFileRestart := true |} else h.

(** [c] is the initial condition of group [i]: of the kind the parameters
    select, named after it, set on the group's variable, and with the value
    that goes with the representation if it is a constant. *)
Definition is_ic_of (this : Config) (i : N) (c : Call) : Prop :=
  exists params,
    c = addInitialCondition (ic_kind this) (ic_kind this ++ "_" ++ variableName this i)
                            params /\
    params !! "variable" = Some (VString (variableName this i)) /\
    (forall function, ic_kind this = "FunctionIC" ->
       nt_ic_function this = Some function ->
       params !! "function" = Some (VString function)) /\
    (ic_kind this = "ConstantIC" ->
       params !! "value" = Some (VReal (if use_exp_form this then 0 else 1))).

(** [c] is the vacuum boundary condition of group [i] on [boundaries]. *)
Definition is_vacuum_bc_of (this : Config) (boundaries : list string) (i : N)
    (c : Call) : Prop :=
  exists params,
    c = addBoundaryCondition "VacuumConcBC" ("VacuumConcBC_" ++ variableName this i)
                             params /\
    params !! "variable" = Some (VString (variableName this i)) /\
    params !! "boundary" = Some (VStrings boundaries) /\
    params !! "vacuum_bc_type" = Some (VEnum (vacuum_bc_name (vacuum_bc_type this))).

(** ** Vocabulary of the further properties *)

(** The tasks the action is registered for (lines 14-21). *)
Definition registered_tasks : list string :=
  ["add_kernel"; "add_bc"; "add_variable"; "add_ic"; "add_aux_variable";
   "add_aux_kernel"; "check_copy_nodal_vars"; "copy_nodal_vars"].

(** The task in which [act] makes a call of each kind. *)
Definition task_of_call (c : Call) : string :=
  match c with
  | addVariable _ _ _ => "add_variable"
  | addAuxVariable _ _ _ => "add_aux_variable"
  | addKernel _ _ _ => "add_kernel"
  | addAuxKernel _ _ _ => "add_aux_kernel"
  | addBoundaryCondition _ _ _ => "add_bc"
  | addInitialCondition _ _ _ => "add_ic"
  | addVariableToCopy _ _ _ => "copy_nodal_vars"
  end.

(** The name under which a call registers its object. *)
Definition call_name (c : Call) : string :=
  match c with
  | addVariable _ name _ => name
  | addAuxVariable name _ _ => name
  | addKernel _ name _ => name
  | addAuxKernel _ name _ => name
  | addBoundaryCondition _ name _ => name
  | addInitialCondition _ name _ => name
  | addVariableToCopy name _ _ => name
  end.

(** The object type a call names, where it names one. *)
Definition call_type (c : Call) : string :=
  match c with
  | addVariable t _ _ => t
  | addKernel t _ _ => t
  | addAuxKernel t _ _ => t
  | addBoundaryCondition t _ _ => t
  | addInitialCondition t _ _ => t
  | addAuxVariable _ _ _ => ""
  | addVariableToCopy _ _ _ => ""
  end.

(** The parameter object a call passes, where it passes one. *)
Definition call_params (c : Call) : gmap string Value :=
  match c with
  | addVariable _ _ p => p
  | addKernel _ _ p => p
  | addAuxKernel _ _ p => p
  | addBoundaryCondition _ _ p => p
  | addInitialCondition _ _ p => p
  | addAuxVariable _ _ _ => ∅
  | addVariableToCopy _ _ _ => ∅
  end.

(** What a step of the action run under [task] may do to the host [h]:
    append calls of that task's kind; leave the restart flag, or raise it
    when the task is [check_copy_nodal_vars]; fail only with the conflict
    of initial conditions, in task [add_ic]. *)
Definition Orderly (task : string) (h : Host) (r : Host * Outcome unit) : Prop :=
  (exists l, calls r.1 = (calls h ++ l)%list /\
             Forall (fun c => task_of_call c = task) l) /\
  (exodusFileRestart r.1 = exodusFileRestart h \/
   task = "check_copy_nodal_vars" /\ exodusFileRestart r.1 = true) /\
  (forall msg, r.2 = MooseError msg ->
               task = "add_ic" /\ msg = ConflictingOptionError).

Definition OrderlyAct (task : string) (m : Act unit) : Prop :=
  forall h, Orderly task h (m h).

(** The kernel types of one group, in the order of lines 127-141. *)
Definition kernel_types (this : Config) : list string :=
  ((if eigen this then [] else ["NtTimeDerivative"]) ++
   ["GroupDiffusion"; "SigmaR"] ++
   (if _num_groups this =? 1 then [] else ["InScatter"]) ++
   ["CoupledFissionKernel"] ++
   (if account_delayed this then ["DelayedNeutronSource"] else []))%list.

(** A configuration that supplies the required parameters of [validParams]
    (lines 28-39, 68-70) and leaves every other parameter as declared: at its
    default, or unset where there is none. *)
Definition validParams (precursor_groups : N) (base : string)
    (temperature_var : list string) (groups : N)
    (exp_form delayed sss2 : bool) : Config := {|
  num_precursor_groups := precursor_groups;
  var_name_base := base;
  temperature := temperature_var;
  pre_concs := None;
  temp_scaling := None;
  num_groups := groups;
  use_exp_form := exp_form;
  jac_test := false;
  nt_ic_function := None;
  vacuum_boundaries := None;
  vacuum_bc_type := marshak;
  create_temperature_var := true;
  init_nts_from_file := false;
  init_temperature_from_file := false;
  dg_for_temperature := true;
  eigen := false;
  account_delayed := delayed;
  sss2_input := sss2;
  pre_blocks := None;
  eigenvalue_scaling := 1;
  block := None
|}.

(** Further sample configurations. *)
Definition full_restart_config : Config :=
  make_config 2 false false false false None None None true true true.

Definition no_group_config : Config :=
  make_config 0 true true false true (Some "ic_func") (Some ["left"]) (Some ["pre1"])
              true true false.

Definition three_group_exp_config : Config :=
  make_config 3 true false false false None None None true false false.

Definition delayed_eigen_config : Config :=
  make_config 2 false false true true None None (Some ["pre1"; "pre2"]) true false false.

Definition huge_config : Config :=
  make_config 4294967295 false false false false None None None true false false.

(** * Proofs *)

(** ** Decimal names *)

Lemma stringify_examples :
  stringify 1 = "1" /\ stringify 9 = "9" /\ stringify 10 = "10" /\ stringify 123 = "123".
Proof. repeat split; reflexivity. Qed.

(** [stringify] prints the decimal numeral without leading zero, and the
    numeral reads back as the number: distinct groups get distinct suffixes. *)
Lemma stringify_decimal (n : N) :
  NilZero.uint_of_string (stringify n) = Some (N.to_uint n) /\
  Decimal.unorm (N.to_uint n) = N.to_uint n /\
  N.of_uint (N.to_uint n) = n.
Proof.
  unfold stringify. split; [|split].
  - apply NilZero.usu. destruct n as [|p]; [discriminate|].
    apply DecimalPos.Unsigned.to_uint_nonnil.
  - rewrite <- (DecimalN.Unsigned.of_to n) at 2.
    symmetry. apply DecimalN.Unsigned.to_of.
  - apply DecimalN.Unsigned.of_to.
Qed.

Lemma stringify_inj (m n : N) : stringify m = stringify n -> m = n.
Proof.
  intros E.
  destruct (stringify_decimal m) as (Hm & _ & Hm').
  destruct (stringify_decimal n) as (Hn & _ & Hn').
  rewrite E, Hn in Hm. congruence.
Qed.

(** ** The loops *)

Lemma incr_no_wrap (op n : N) : op <= n -> n < UINT_MAX -> incr op = op + 1.
Proof.
  unfold incr, UINT_MAX. intros. apply N.mod_small.
  change (2 ^ 32) with 4294967296. lia.
Qed.

Lemma groups_from_S (op : N) (k : nat) :
  groups_from op (S k) = op :: groups_from (op + 1) k.
Proof.
  unfold groups_from. simpl. rewrite N2Nat.id. f_equal.
  by rewrite N.add_1_r, N2Nat.inj_succ.
Qed.

Lemma length_groups (n : N) : length (groups n) = N.to_nat n.
Proof. unfold groups, groups_from. by rewrite length_fmap, length_seq. Qed.

(** The groups come in ascending order, from 1. *)
Lemma groups_ascending (n : N) (i : nat) :
  (i < N.to_nat n)%nat -> groups n !! i = Some (N.of_nat (S i)).
Proof.
  intros Hi. unfold groups, groups_from.
  rewrite list_lookup_fmap, lookup_seq_lt by done. done.
Qed.

Lemma groups_example : group_name "pre" <$> groups 3 = ["pre1"; "pre2"; "pre3"].
Proof. reflexivity. Qed.

Lemma groups_split (n : N) : 1 <= n -> groups n = 1 :: groups_from 2 (N.to_nat n - 1).
Proof.
  intros Hn. unfold groups.
  replace (N.to_nat n) with (S (N.to_nat n - 1)) at 1 by lia.
  apply groups_from_S.
Qed.

(** The counter does not wrap below [UINT_MAX]: the loop runs through the
    groups [op .. n] and ends, given fuel for one more test than groups. *)
Lemma for_op_run (body : N -> Act unit) (n : N) (k : nat) :
  n < UINT_MAX ->
  forall (fuel : nat) (op : N) (h : Host),
    op + N.of_nat k = n + 1 -> (k < fuel)%nat ->
    for_op fuel op n body h = Some (run_groups body (groups_from op k) h).
Proof.
  intros Hn. induction k as [|k IH]; intros fuel op h Hop Hfuel;
    (destruct fuel as [|fuel]; [lia|]); cbn [for_op].
  - assert ((op <=? n) = false) as -> by (apply N.leb_gt; lia). done.
  - assert ((op <=? n) = true) as -> by (apply N.leb_le; lia).
    rewrite groups_from_S. cbn [run_groups]. unfold mbind, Act_bind.
    destruct (body op h) as [h' [[]|msg]]; [|done].
    rewrite incr_no_wrap with (n := n) by lia.
    apply IH; lia.
Qed.

Lemma push_names_run (base : string) (n : N) (k : nat) :
  n < UINT_MAX ->
  forall (fuel : nat) (op : N) (acc : list string),
    op + N.of_nat k = n + 1 -> (k < fuel)%nat ->
    push_names fuel op n base acc =
    Some ((acc ++ (group_name base <$> groups_from op k))%list).
Proof.
  intros Hn. induction k as [|k IH]; intros fuel op acc Hop Hfuel;
    (destruct fuel as [|fuel]; [lia|]); cbn [push_names].
  - assert ((op <=? n) = false) as -> by (apply N.leb_gt; lia).
    unfold groups_from. simpl. by rewrite app_nil_r.
  - assert ((op <=? n) = true) as -> by (apply N.leb_le; lia).
    rewrite incr_no_wrap with (n := n) by lia.
    rewrite IH by lia. rewrite groups_from_S, fmap_cons.
    by rewrite <- app_assoc.
Qed.

(** At [UINT_MAX] the test [op <= _num_groups] never fails. *)
Lemma push_names_UINT_MAX (base : string) (fuel : nat) :
  forall (op : N) (acc : list string),
    op <= UINT_MAX -> push_names fuel op UINT_MAX base acc = None.
Proof.
  induction fuel as [|fuel IH]; intros op acc Hop; simpl; [done|].
  assert ((op <=? UINT_MAX) = true) as -> by by apply N.leb_le.
  apply IH. unfold incr, UINT_MAX.
  pose proof (N.mod_upper_bound (op + 1) (2 ^ 32)) as Hm.
  change (2 ^ 32) with 4294967296 in *. lia.
Qed.

(** ** Composition of submissions *)

Lemma submitted_nil (h : Host) : submitted h [] = h.
Proof. destruct h. unfold submitted. simpl. by rewrite app_nil_r. Qed.

Lemma submitted_app (h : Host) (l1 l2 : list Call) :
  submitted (submitted h l1) l2 = submitted h (l1 ++ l2).
Proof. unfold submitted. simpl. by rewrite app_assoc. Qed.

Lemma Emits_ret : Emits (mret tt) [].
Proof. intros h. unfold mret, Act_ret. by rewrite submitted_nil. Qed.

Lemma Emits_submit (c : Call) : Emits (submit c) [c].
Proof. done. Qed.

Lemma Emits_bind (m1 m2 : Act unit) (l1 l2 : list Call) :
  Emits m1 l1 -> Emits m2 l2 -> Emits (m1 ;; m2) (l1 ++ l2).
Proof.
  intros H1 H2 h. unfold mbind, Act_bind.
  by rewrite H1, H2, submitted_app.
Qed.

Lemma Emits_when (b : bool) (m : Act unit) (l : list Call) :
  Emits m l -> Emits (when b m) (if b then l else []).
Proof. destruct b; simpl; [done|]. intros _. apply Emits_ret. Qed.

Lemma Emits_run_groups (body : N -> Act unit) (f : N -> list Call) (ops : list N) :
  (forall op, Emits (body op) (f op)) ->
  Emits (run_groups body ops) (ops ≫= f).
Proof.
  intros Hbody. induction ops as [|op ops IH]; csimpl.
  - apply Emits_ret.
  - by apply Emits_bind.
Qed.

Lemma bind_single_fmap {A B} (f : A -> B) (l : list A) :
  (l ≫= fun a => [f a]) = f <$> l.
Proof. induction l as [|a l IH]; csimpl; by f_equal. Qed.

Lemma bind_const_nil {A B} (l : list A) : (l ≫= fun _ => @nil B) = [].
Proof. by induction l. Qed.

Lemma Emits_if (b : bool) (m1 m2 : Act unit) (l1 l2 : list Call) :
  Emits m1 l1 -> Emits m2 l2 ->
  Emits (if b then m1 else m2) (if b then l1 else l2).
Proof. by destruct b. Qed.

Lemma Emits_decide (P : Prop) `{Decision P} (m1 m2 : Act unit) (l1 l2 : list Call) :
  Emits m1 l1 -> Emits m2 l2 ->
  Emits (if decide P then m1 else m2) (if decide P then l1 else l2).
Proof. by destruct (decide P). Qed.

Lemma Emits_eq (m : Act unit) (l l' : list Call) : Emits m l -> l = l' -> Emits m l'.
Proof. by intros ? <-. Qed.

(** Collects the calls of a composition of submissions; the list found is
    left to be compared with the one stated. *)
Ltac emits :=
  eapply Emits_eq;
  [ repeat first
      [ apply Emits_bind | apply Emits_when | apply Emits_ret
      | apply Emits_submit | apply Emits_decide | apply Emits_if ]
  | ].

Lemma filter_bind {A B} (p : B -> bool) (f : A -> list B) (l : list A) :
  List.filter p (l ≫= f) = l ≫= (fun a => List.filter p (f a)).
Proof.
  induction l as [|a l IH]; csimpl; [done|].
  by rewrite List.filter_app, IH.
Qed.

Lemma list_bind_bind {A B C} (f : A -> list B) (g : B -> list C) (l : list A) :
  (l ≫= f) ≫= g = l ≫= (fun a => f a ≫= g).
Proof.
  induction l as [|a l IH]; csimpl; [done|].
  by rewrite bind_app, IH.
Qed.

Lemma run_groups_Forall2 (body : N -> Act unit) (P : N -> Call -> Prop) (ops : list N) :
  (forall op, exists c, Emits (body op) [c] /\ P op c) ->
  exists cs, Emits (run_groups body ops) cs /\ Forall2 P ops cs.
Proof.
  intros Hbody. induction ops as [|op ops (cs & Hcs & HP)]; simpl.
  - exists []. split; [apply Emits_ret|constructor].
  - destruct (Hbody op) as (c & Hc & Hop).
    exists (c :: cs). split; [|by constructor].
    by apply (Emits_bind _ _ [c] cs).
Qed.

#[local] Arguments ntKernelParams : simpl never.
#[local] Arguments coupledFissionParams : simpl never.
#[local] Arguments delayedNeutronSourceParams : simpl never.
#[local] Arguments temperatureVariable : simpl never.
#[local] Arguments vacuumBCParams : simpl never.
#[local] Arguments randomICParams : simpl never.
#[local] Arguments functionICParams : simpl never.
#[local] Arguments constantICParams : simpl never.
#[local] Arguments linAuxVariable : simpl never.
#[local] Arguments densityParams : simpl never.
#[local] Arguments set : simpl never.
#[local] Arguments stringify : simpl never.

Section Proofs.

Context `{Framework}.

(** Below [UINT_MAX] both loops of [act] end, and [act] is the body run
    over the groups [1 .. _num_groups], followed by the temperature part. *)
Lemma act_run (this : Config) (_current_task : string) (fuel : nat) (h : Host) :
  _num_groups this < UINT_MAX ->
  (N.to_nat (_num_groups this) < fuel)%nat ->
  act fuel this _current_task h =
  Some ((run_groups (group_body this _current_task (all_var_names_of this))
                    (groups (_num_groups this)) ;;
         temperature_part this _current_task) h).
Proof.
  intros Hn Hfuel. unfold act.
  rewrite push_names_run with (k := N.to_nat (_num_groups this)) by lia.
  rewrite for_op_run with (k := N.to_nat (_num_groups this)) by lia.
  unfold mbind, Act_bind. fold (groups (_num_groups this)).
  change ([] ++ ?l)%list with l.
  fold (all_var_names_of this).
  by destruct (run_groups _ _ h) as [h' [[]|msg]].
Qed.

(** At [UINT_MAX] the counter wraps to zero and [act] never returns. *)
Lemma act_UINT_MAX (this : Config) (_current_task : string) (fuel : nat) (h : Host) :
  _num_groups this = UINT_MAX -> act fuel this _current_task h = None.
Proof.
  intros Hn. unfold act. rewrite Hn.
  by rewrite push_names_UINT_MAX.
Qed.

Lemma group_body_add_variable (this : Config) (all_var_names : list string) (op : N) :
  Emits (group_body this "add_variable" all_var_names op)
        [addVariable (baseVariableType this) (variableName this op)
                     (baseVariableParams this)].
Proof.
  unfold group_body, addLinAux, NtAction_addVariable. simpl. emits.
  by repeat case_match.
Qed.

Lemma temperature_part_add_variable (this : Config) :
  Emits (temperature_part this "add_variable")
        (if create_temperature_var this
         then [temperatureVariable this "temp"] else []).
Proof.
  unfold temperature_part. simpl. emits.
  by repeat case_match.
Qed.

(** A task whose group body and temperature part only submit calls. *)
Lemma act_emits (this : Config) (_current_task : string) (fuel : nat) (h : Host)
    (f : N -> list Call) (l : list Call) :
  _num_groups this < UINT_MAX ->
  (N.to_nat (_num_groups this) < fuel)%nat ->
  (forall op, Emits (group_body this _current_task (all_var_names_of this) op) (f op)) ->
  Emits (temperature_part this _current_task) l ->
  act fuel this _current_task h =
    Some (submitted h ((groups (_num_groups this) ≫= f) ++ l)%list, Done tt).
Proof.
  intros Hn Hfuel Hbody Htemp. rewrite act_run by done. f_equal.
  apply Emits_bind; [|done]. by apply Emits_run_groups.
Qed.

Lemma temperature_part_silent (this : Config) (_current_task : string) :
  _current_task ∈ ["add_kernel"; "add_bc"; "add_ic"; "add_aux_variable"; "add_aux_kernel"] ->
  Emits (temperature_part this _current_task) [].
Proof.
  intros Hin.
  repeat (apply elem_of_cons in Hin as [->|Hin]);
    [..|by apply elem_of_nil in Hin];
    unfold temperature_part; simpl; emits; by repeat case_match.
Qed.

(** ** Task [add_variable] *)

(** The temperature variable is registered by a call of [addVariable] under
    the name it is given, with the type the host derives from a first-order
    element of the chosen family. *)
Lemma temperatureVariable_call (this : Config) (temp_var : string) :
  exists temp_params,
    temperatureVariable this temp_var =
      addVariable
        (variableType
           {| order := FIRST;
              family := if dg_for_temperature this then L2_LAGRANGE else LAGRANGE |})
        temp_var temp_params.
Proof.
  unfold temperatureVariable. cbv zeta.
  assert ((if dg_for_temperature this then FIRST else FIRST) = FIRST) as ->
    by by destruct (dg_for_temperature this).
  by eexists.
Qed.

(** C1.  With [num_groups = N] below [UINT_MAX] and base name [b], task
    [add_variable] returns once both loops have had fuel for their [N]
    groups, and has then submitted exactly [N] group variables, named
    [b ++ stringify i] for [i = 1 .. N] in ascending order (the variable at
    position [i], counted from 0, is that of group [i + 1]), followed by one
    more call of [addVariable], for the temperature variable under the name
    [temp], if and only if [create_temperature_var] holds. *)
Theorem add_variable_descriptors (this : Config) (fuel : nat) (h : Host) :
  _num_groups this < UINT_MAX ->
  (N.to_nat (_num_groups this) < fuel)%nat ->
  let group_variables :=
    (fun i => addVariable (baseVariableType this)
                          (_var_name_base this ++ stringify i)
                          (baseVariableParams this))
      <$> groups (_num_groups this) in
  exists temp_params,
    act fuel this "add_variable" h =
      Some (submitted h
              (group_variables ++
               (if create_temperature_var this
                then [addVariable
                        (variableType
                           {| order := FIRST;
                              family := if dg_for_temperature this
                                        then L2_LAGRANGE else LAGRANGE |})
                        "temp" temp_params]
                else []))%list,
            Done tt) /\
    length group_variables = N.to_nat (_num_groups this) /\
    (forall i : nat,
       (i < N.to_nat (_num_groups this))%nat ->
       group_variables !! i =
         Some (addVariable (baseVariableType this)
                           (_var_name_base this ++ stringify (N.of_nat (S i)))
                           (baseVariableParams this))).
Proof.
  intros Hn Hfuel group_variables.
  destruct (temperatureVariable_call this "temp") as [temp_params Htemp].
  exists temp_params. split; [|split].
  - rewrite act_run by done. f_equal. rewrite <- Htemp.
    apply Emits_bind; [|apply temperature_part_add_variable].
    unfold group_variables. rewrite <- bind_single_fmap.
    apply Emits_run_groups. intros op.
    apply group_body_add_variable.
  - unfold group_variables. by rewrite length_fmap, length_groups.
  - intros i Hi. unfold group_variables.
    by rewrite list_lookup_fmap, groups_ascending.
Qed.

(** ** Task [add_kernel] *)

Lemma group_body_add_kernel (this : Config) (all_var_names : list string) (op : N) :
  Emits (group_body this "add_kernel" all_var_names op)
        (kernel_calls this all_var_names op).
Proof.
  unfold group_body, addLinAux, addNtKernel, addCoupledFissionKernel,
    addDelayedNeutronSource, kernel_calls, variableName, group_name.
  simpl. emits.
  by repeat case_match.
Qed.

Lemma act_add_kernel (this : Config) (fuel : nat) (h : Host) :
  _num_groups this < UINT_MAX ->
  (N.to_nat (_num_groups this) < fuel)%nat ->
  act fuel this "add_kernel" h =
    Some (submitted h (groups (_num_groups this)
                         ≫= kernel_calls this (all_var_names_of this)),
          Done tt).
Proof.
  intros Hn Hfuel.
  rewrite act_emits with (f := kernel_calls this (all_var_names_of this)) (l := []);
    [by rewrite app_nil_r|done..| |].
  - intros op. apply group_body_add_kernel.
  - apply temperature_part_silent. set_solver.
Qed.

Lemma in_scatter_of_group (this : Config) (all_var_names : list string) (op : N) :
  List.filter (is_kernel_of "InScatter") (kernel_calls this all_var_names op) =
  if _num_groups this =? 1 then []
  else [addKernel "InScatter" ("InScatter_" ++ variableName this op)
          (ntKernelParams this op (variableName this op) "InScatter" all_var_names)].
Proof. unfold kernel_calls. by repeat case_match. Qed.

(** C3.  With one group, task [add_kernel] submits no [InScatter] kernel;
    with two or more groups (below [UINT_MAX]) the [InScatter] kernels it
    submits are exactly one per group, in the order of the groups. *)
Theorem add_kernel_in_scatter (this : Config) (fuel : nat) (h : Host) :
  _num_groups this < UINT_MAX ->
  (N.to_nat (_num_groups this) < fuel)%nat ->
  exists kernels,
    act fuel this "add_kernel" h = Some (submitted h kernels, Done tt) /\
    (_num_groups this = 1 ->
       List.filter (is_kernel_of "InScatter") kernels = []) /\
    (2 <= _num_groups this ->
       List.filter (is_kernel_of "InScatter") kernels =
         (fun i => addKernel "InScatter" ("InScatter_" ++ variableName this i)
                     (ntKernelParams this i (variableName this i) "InScatter"
                                     (all_var_names_of this)))
           <$> groups (_num_groups this) /\
       length (List.filter (is_kernel_of "InScatter") kernels) =
         N.to_nat (_num_groups this)).
Proof.
  intros Hn Hfuel. eexists. split; [by apply act_add_kernel|].
  rewrite filter_bind.
  rewrite (list_bind_ext _ _ _ _ (in_scatter_of_group this (all_var_names_of this)) eq_refl).
  split.
  - intros ->. simpl. done.
  - intros Hge. assert ((_num_groups this =? 1) = false) as ->
      by (apply N.eqb_neq; lia).
    rewrite bind_single_fmap. split; [done|].
    by rewrite length_fmap, length_groups.
Qed.

(** ** [eigen] and the kernels *)

Lemma lookup_set_ne (k name : string) (v : Value) (p : gmap string Value) :
  k <> name -> set k v p !! name = p !! name.
Proof. apply lookup_insert_ne. Qed.

Lemma lookup_set_eq (k : string) (v : Value) (p : gmap string Value) :
  set k v p !! k = Some v.
Proof. apply lookup_insert_eq. Qed.

Lemma lookup_set_congr (k name : string) (v : Value) (p q : gmap string Value) :
  p !! name = q !! name -> set k v p !! name = set k v q !! name.
Proof.
  intros E. unfold set. destruct (decide (k = name)) as [->|Hne].
  - by rewrite !lookup_insert_eq.
  - by rewrite !lookup_insert_ne.
Qed.

Lemma lookup_set_if_valid_congr {A} (k name : string) (mk : A -> Value)
    (o : option A) (p q : gmap string Value) :
  p !! name = q !! name ->
  set_if_valid k mk o p !! name = set_if_valid k mk o q !! name.
Proof. destruct o; simpl; [apply lookup_set_congr|done]. Qed.

(** [eigen] is the only entry of [parameters()] that [with_eigen] changes. *)
Lemma parameters_with_eigen (b : bool) (this : Config) (name : string) :
  name <> "eigen" ->
  parameters (with_eigen b this) !! name = parameters this !! name.
Proof.
  intros Hne. unfold parameters, with_eigen. cbn [eigen num_precursor_groups
    var_name_base temperature pre_concs temp_scaling num_groups use_exp_form
    jac_test nt_ic_function vacuum_boundaries vacuum_bc_type
    create_temperature_var init_nts_from_file init_temperature_from_file
    dg_for_temperature account_delayed sss2_input pre_blocks
    eigenvalue_scaling block].
  repeat first [apply lookup_set_if_valid_congr | apply lookup_set_congr].
  by rewrite !(lookup_set_ne "eigen") by congruence.
Qed.

Lemma ntKernelParams_with_eigen (b : bool) (this : Config) (op : N)
    (var_name kernel_type : string) (all_var_names : list string) :
  ntKernelParams (with_eigen b this) op var_name kernel_type all_var_names =
  ntKernelParams this op var_name kernel_type all_var_names.
Proof.
  unfold ntKernelParams, applySpecificParameters. simpl.
  by rewrite parameters_with_eigen.
Qed.

Lemma delayedNeutronSourceParams_with_eigen (b : bool) (this : Config) (op : N)
    (var_name : string) :
  delayedNeutronSourceParams (with_eigen b this) op var_name =
  delayedNeutronSourceParams this op var_name.
Proof.
  unfold delayedNeutronSourceParams, applySpecificParameters. simpl.
  by rewrite !parameters_with_eigen.
Qed.

Lemma coupledFissionParams_with_eigen (this : Config) (op : N)
    (var_name : string) (all_var_names : list string) :
  coupledFissionParams (with_eigen true this) op var_name all_var_names =
  set "extra_vector_tags" (VStrings ["eigen"])
      (coupledFissionParams (with_eigen false this) op var_name all_var_names).
Proof.
  unfold coupledFissionParams, applySpecificParameters. simpl.
  by rewrite !parameters_with_eigen.
Qed.

Lemma kernel_calls_with_eigen (this : Config) (all_var_names : list string) (op : N) :
  kernel_calls (with_eigen true this) all_var_names op =
  kernel_calls (with_eigen false this) all_var_names op ≫= eigen_view.
Proof.
  unfold kernel_calls.
  change (variableName (with_eigen _ this) op) with (variableName this op).
  change (_num_groups (with_eigen _ this)) with (_num_groups this).
  change (account_delayed (with_eigen _ this)) with (account_delayed this).
  change (eigen (with_eigen true this)) with true.
  change (eigen (with_eigen false this)) with false.
  rewrite !ntKernelParams_with_eigen, !delayedNeutronSourceParams_with_eigen,
    coupledFissionParams_with_eigen.
  by repeat case_match.
Qed.

(** C2, as the code has it.  In the eigenvalue run task [add_kernel]
    submits what the transient run of the same parameters submits, except
    that each group's [NtTimeDerivative] kernel is absent and each group's
    [CoupledFissionKernel] has the entry [extra_vector_tags = eigen] added
    to its parameters; all other calls, in kind, name and parameters, are
    the same and in the same order. *)
Theorem eigen_kernels (this : Config) (fuel : nat) (h : Host) :
  eigen this = true ->
  _num_groups this < UINT_MAX ->
  (N.to_nat (_num_groups this) < fuel)%nat ->
  exists transient eigenvalue,
    act fuel (with_eigen false this) "add_kernel" h =
      Some (submitted h transient, Done tt) /\
    act fuel this "add_kernel" h = Some (submitted h eigenvalue, Done tt) /\
    eigenvalue = transient ≫= eigen_view.
Proof.
  intros Heigen Hn Hfuel.
  assert (this = with_eigen true this) as Hthis
    by (destruct this; simpl in Heigen; by subst).
  do 2 eexists. split; [by apply act_add_kernel|].
  split; [by apply act_add_kernel|].
  rewrite list_bind_bind.
  change (_num_groups (with_eigen false this)) with (_num_groups this).
  change (all_var_names_of (with_eigen false this)) with (all_var_names_of this).
  apply list_bind_ext; [|done]. intros op.
  transitivity (kernel_calls (with_eigen true this) (all_var_names_of this) op);
    [by rewrite <- Hthis | apply kernel_calls_with_eigen].
Qed.

(** ** The constructor *)

(** C4.  Delayed neutrons without [pre_concs] make the constructor fail
    with the configuration error, the host untouched; with [pre_concs]
    supplied, or without delayed neutrons, it returns the object. *)
Theorem constructor_validation (params : Config) (h : Host) :
  (account_delayed params = true -> pre_concs params = None ->
     NtAction params h = (h, MooseError ConfigurationError)) /\
  (account_delayed params = false \/ pre_concs params <> None ->
     NtAction params h = (h, Done params)).
Proof.
  unfold NtAction. split.
  - by intros -> ->.
  - intros [->|Hpre].
    + by rewrite andb_false_r.
    + by destruct (pre_concs params).
Qed.

(** ** Task [add_ic] *)

Lemma group_body_add_ic_restart (this : Config) (all_var_names : list string) (op : N) :
  init_nts_from_file this = true ->
  Emits (group_body this "add_ic" all_var_names op) [].
Proof.
  intros Hrestart. unfold group_body, addLinAux. rewrite Hrestart.
  simpl. emits. by repeat case_match.
Qed.

Lemma act_add_ic_restart (this : Config) (fuel : nat) (h : Host) :
  init_nts_from_file this = true ->
  _num_groups this < UINT_MAX ->
  (N.to_nat (_num_groups this) < fuel)%nat ->
  act fuel this "add_ic" h = Some (h, Done tt).
Proof.
  intros Hrestart Hn Hfuel.
  rewrite act_emits with (f := fun _ => []) (l := []); [|done..| |].
  - by rewrite bind_const_nil, submitted_nil.
  - intros op. by apply group_body_add_ic_restart.
  - apply temperature_part_silent. set_solver.
Qed.

Lemma group_body_add_ic_conflict (this : Config) (all_var_names : list string)
    (op : N) (h : Host) :
  init_nts_from_file this = false ->
  jac_test this = true ->
  isParamValid (nt_ic_function this) = true ->
  group_body this "add_ic" all_var_names op h = (h, MooseError ConflictingOptionError).
Proof.
  intros Hrestart Hjac Hfun. unfold group_body, addNtIC.
  by rewrite Hrestart, Hjac, Hfun.
Qed.

(** The call of lines 166-205, when the options do not conflict. *)
Lemma group_body_add_ic (this : Config) (all_var_names : list string) (op : N) :
  init_nts_from_file this = false ->
  jac_test this && isParamValid (nt_ic_function this) = false ->
  exists ic, Emits (group_body this "add_ic" all_var_names op) [ic] /\
             is_ic_of this op ic.
Proof.
  intros Hrestart Hok. unfold group_body, addNtIC, addLinAux, is_ic_of, ic_kind.
  rewrite Hrestart, Hok. fold (variableName this op).
  destruct (jac_test this); [|destruct (nt_ic_function this) as [function|]];
    simpl in Hok |- *; try done.
  - eexists. split; [emits; by repeat case_match|].
    eexists. split; [done|]. split; [|done].
    unfold randomICParams. rewrite !lookup_set_ne by done.
    destruct (block this); simpl; [rewrite lookup_set_ne by done|];
      apply lookup_set_eq.
  - eexists. split; [emits; by repeat case_match|].
    eexists. split; [done|]. split; [|split; [|done]].
    + unfold functionICParams. rewrite !lookup_set_ne by done.
      destruct (block this); simpl; [rewrite lookup_set_ne by done|];
        apply lookup_set_eq.
    + intros f _ [= <-]. apply lookup_set_eq.
  - eexists. split; [emits; by repeat case_match|].
    eexists. split; [done|]. split; [|split; [done|]].
    + unfold constantICParams.
      destruct (use_exp_form this); rewrite !lookup_set_ne by done;
        (destruct (block this); simpl; [rewrite lookup_set_ne by done|]);
        apply lookup_set_eq.
    + intros _. unfold constantICParams.
      destruct (use_exp_form this); apply lookup_set_eq.
Qed.

(** C5, as the code has it.  With [jac_test] and [nt_ic_function] both set,
    the neutron fields not read from file and at least one group, task
    [add_ic] stops with the conflicting-options error in the first
    iteration, before anything has been submitted. *)
Theorem add_ic_conflict (this : Config) (fuel : nat) (h : Host) :
  jac_test this = true ->
  isParamValid (nt_ic_function this) = true ->
  init_nts_from_file this = false ->
  1 <= _num_groups this ->
  _num_groups this < UINT_MAX ->
  (N.to_nat (_num_groups this) < fuel)%nat ->
  act fuel this "add_ic" h = Some (h, MooseError ConflictingOptionError).
Proof.
  intros Hjac Hfun Hrestart Hone Hn Hfuel.
  rewrite act_run by done. rewrite groups_split by done.
  cbn [run_groups]. unfold mbind, Act_bind.
  by rewrite group_body_add_ic_conflict.
Qed.

(** C6, as the code has it.  When the neutron fields are not read from
    file and [jac_test] and [nt_ic_function] are not both set, task
    [add_ic] submits exactly one initial condition per group, in the order
    of the groups: a [RandomIC] if [jac_test] is set, else a [FunctionIC] if
    [nt_ic_function] is set, else a [ConstantIC] of value 0 in exponential
    form and 1 otherwise.  When the neutron fields are read from file it
    submits nothing. *)
Theorem add_ic_descriptors (this : Config) (fuel : nat) (h : Host) :
  _num_groups this < UINT_MAX ->
  (N.to_nat (_num_groups this) < fuel)%nat ->
  (init_nts_from_file this = false ->
   jac_test this && isParamValid (nt_ic_function this) = false ->
   exists ics,
     act fuel this "add_ic" h = Some (submitted h ics, Done tt) /\
     Forall2 (is_ic_of this) (groups (_num_groups this)) ics) /\
  (init_nts_from_file this = true ->
   act fuel this "add_ic" h = Some (h, Done tt)).
Proof.
  intros Hn Hfuel. split.
  - intros Hrestart Hok.
    destruct (run_groups_Forall2
                (group_body this "add_ic" (all_var_names_of this))
                (is_ic_of this) (groups (_num_groups this)))
      as (ics & Hics & HP).
    { intros op. by apply group_body_add_ic. }
    exists ics. split; [|done].
    rewrite act_run by done. f_equal.
    rewrite <- (app_nil_r ics). apply Emits_bind; [done|].
    apply temperature_part_silent. set_solver.
  - intros Hrestart. by apply act_add_ic_restart.
Qed.

(** C10.  When the neutron fields are read from file, task [add_ic] with
    [jac_test] and [nt_ic_function] both set returns without error and
    without having submitted anything: the test for conflicting options
    is not reached. *)
Theorem add_ic_restart_skips_validation (this : Config) (fuel : nat) (h : Host) :
  init_nts_from_file this = true ->
  jac_test this = true ->
  isParamValid (nt_ic_function this) = true ->
  _num_groups this < UINT_MAX ->
  (N.to_nat (_num_groups this) < fuel)%nat ->
  act fuel this "add_ic" h = Some (h, Done tt).
Proof. intros Hrestart _ _. by apply act_add_ic_restart. Qed.

(** ** Tasks [add_aux_variable] and [add_aux_kernel] *)

Lemma group_body_add_aux_variable (this : Config) (all_var_names : list string) (op : N) :
  Emits (group_body this "add_aux_variable" all_var_names op)
        (if use_exp_form this
         then [linAuxVariable this (variableName this op ++ "_lin")] else []).
Proof.
  unfold group_body, addLinAux. simpl. emits. by repeat case_match.
Qed.

Lemma group_body_add_aux_kernel (this : Config) (all_var_names : list string) (op : N) :
  Emits (group_body this "add_aux_kernel" all_var_names op)
        (if use_exp_form this
         then [addAuxKernel "Density" ("Density_" ++ variableName this op ++ "_lin")
                 (densityParams this (variableName this op)
                                (variableName this op ++ "_lin"))]
         else []).
Proof.
  unfold group_body, addLinAux. simpl. emits. by repeat case_match.
Qed.

Lemma linAuxVariable_name (this : Config) (aux_var_name : string) :
  exists fe_type subdomains,
    linAuxVariable this aux_var_name = addAuxVariable aux_var_name fe_type subdomains.
Proof. unfold linAuxVariable. case_decide; by do 2 eexists. Qed.

Lemma densityParams_variable (this : Config) (var_name aux_var_name : string) :
  densityParams this var_name aux_var_name !! "variable" = Some (VString aux_var_name) /\
  densityParams this var_name aux_var_name !! "density_log" = Some (VStrings [var_name]).
Proof.
  unfold densityParams.
  destruct (block this); simpl; rewrite ?lookup_set_ne by done;
    split; try apply lookup_set_eq;
    rewrite lookup_set_ne by done; apply lookup_set_eq.
Qed.

(** C7.  In exponential form with two groups, task [add_aux_variable]
    submits exactly two auxiliary variables and task [add_aux_kernel]
    exactly two [Density] kernels, those of group [i] on the field
    [variableName(i) ++ "_lin"]; without exponential form both tasks
    submit nothing. *)
Theorem exp_form_auxiliaries (this : Config) (fuel : nat) (h : Host) :
  (use_exp_form this = true -> _num_groups this = 2 -> (2 < fuel)%nat ->
   let aux1 := variableName this 1 ++ "_lin" in
   let aux2 := variableName this 2 ++ "_lin" in
   exists fe_type subdomains params1 params2,
     act fuel this "add_aux_variable" h =
       Some (submitted h [addAuxVariable aux1 fe_type subdomains;
                          addAuxVariable aux2 fe_type subdomains], Done tt) /\
     act fuel this "add_aux_kernel" h =
       Some (submitted h [addAuxKernel "Density" ("Density_" ++ aux1) params1;
                          addAuxKernel "Density" ("Density_" ++ aux2) params2],
             Done tt) /\
     params1 !! "variable" = Some (VString aux1) /\
     params2 !! "variable" = Some (VString aux2)) /\
  (use_exp_form this = false ->
   _num_groups this < UINT_MAX -> (N.to_nat (_num_groups this) < fuel)%nat ->
   act fuel this "add_aux_variable" h = Some (h, Done tt) /\
   act fuel this "add_aux_kernel" h = Some (h, Done tt)).
Proof.
  split.
  - intros Hexp Htwo Hfuel aux1 aux2.
    assert (_num_groups this < UINT_MAX) as Hn by by rewrite Htwo.
    assert (N.to_nat (_num_groups this) < fuel)%nat as Hfuel' by (rewrite Htwo; lia).
    destruct (linAuxVariable_name this aux1) as (fe_type & subdomains & Haux1).
    pose proof (act_emits this "add_aux_variable" fuel h _ []
                  Hn Hfuel' (group_body_add_aux_variable this _)) as Hvar.
    pose proof (act_emits this "add_aux_kernel" fuel h _ []
                  Hn Hfuel' (group_body_add_aux_kernel this _)) as Hker.
    rewrite Hexp, Htwo in Hvar, Hker.
    exists fe_type, subdomains. do 2 eexists.
    split; [|split; [apply Hker, temperature_part_silent; set_solver|]].
    + rewrite Hvar by (apply temperature_part_silent; set_solver).
      do 3 f_equal. change (groups 2) with [1; 2].
      rewrite bind_single_fmap, app_nil_r. cbn [fmap list_fmap].
      subst aux1 aux2. unfold linAuxVariable in *.
      by case_decide; simplify_eq.
    + split; apply densityParams_variable.
  - intros Hexp Hn Hfuel.
    pose proof (act_emits this "add_aux_variable" fuel h _ []
                  Hn Hfuel (group_body_add_aux_variable this _)) as Hvar.
    pose proof (act_emits this "add_aux_kernel" fuel h _ []
                  Hn Hfuel (group_body_add_aux_kernel this _)) as Hker.
    rewrite Hexp in Hvar, Hker.
    rewrite bind_const_nil, submitted_nil in Hvar, Hker.
    split; [apply Hvar|apply Hker]; apply temperature_part_silent; set_solver.
Qed.

(** ** Task [add_bc] *)

Lemma group_body_add_bc (this : Config) (all_var_names : list string) (op : N)
    (boundaries : list string) :
  vacuum_boundaries this = Some boundaries ->
  exists bc, Emits (group_body this "add_bc" all_var_names op) [bc] /\
             is_vacuum_bc_of this boundaries op bc.
Proof.
  intros Hb. unfold group_body, addLinAux, addVacuumBC. rewrite Hb.
  fold (variableName this op). simpl.
  eexists. split; [emits; by repeat case_match|].
  eexists. split; [done|]. unfold vacuumBCParams. simpl.
  split; [|split]; rewrite ?lookup_set_ne by done; apply lookup_set_eq.
Qed.

Lemma group_body_add_bc_none (this : Config) (all_var_names : list string) (op : N) :
  vacuum_boundaries this = None ->
  Emits (group_body this "add_bc" all_var_names op) [].
Proof.
  intros Hb. unfold group_body, addLinAux, addVacuumBC. rewrite Hb.
  simpl. emits. by repeat case_match.
Qed.

(** C8.  When a vacuum boundary list is supplied, task [add_bc] submits
    exactly one [VacuumConcBC] per group, in the order of the groups, on
    the group's variable, on the supplied boundaries and of the chosen
    type; when none is supplied, it submits nothing. *)
Theorem add_bc_descriptors (this : Config) (fuel : nat) (h : Host) :
  _num_groups this < UINT_MAX ->
  (N.to_nat (_num_groups this) < fuel)%nat ->
  (forall boundaries,
     vacuum_boundaries this = Some boundaries ->
     exists bcs,
       act fuel this "add_bc" h = Some (submitted h bcs, Done tt) /\
       Forall2 (is_vacuum_bc_of this boundaries) (groups (_num_groups this)) bcs) /\
  (vacuum_boundaries this = None ->
   act fuel this "add_bc" h = Some (h, Done tt)).
Proof.
  intros Hn Hfuel. split.
  - intros boundaries Hb.
    destruct (run_groups_Forall2
                (group_body this "add_bc" (all_var_names_of this))
                (is_vacuum_bc_of this boundaries) (groups (_num_groups this)))
      as (bcs & Hbcs & HP).
    { intros op. by apply group_body_add_bc. }
    exists bcs. split; [|done].
    rewrite act_run by done. f_equal.
    rewrite <- (app_nil_r bcs). apply Emits_bind; [done|].
    apply temperature_part_silent. set_solver.
  - intros Hb.
    rewrite act_emits with (f := fun _ => []) (l := []); [|done..| |].
    + by rewrite bind_const_nil, submitted_nil.
    + intros op. by apply group_body_add_bc_none.
    + apply temperature_part_silent. set_solver.
Qed.

(** ** Task [check_copy_nodal_vars] *)

Lemma signal_signal (b1 b2 : bool) (h : Host) :
  signal b2 (signal b1 h) = signal (b1 || b2) h.
Proof. by destruct b1, b2. Qed.

Lemma group_body_check (this : Config) (all_var_names : list string) (op : N)
    (h : Host) :
  group_body this "check_copy_nodal_vars" all_var_names op h =
  (signal (init_nts_from_file this) h, Done tt).
Proof.
  unfold group_body, addLinAux. simpl.
  by destruct (init_nts_from_file this), (use_exp_form this).
Qed.

Lemma run_groups_check (this : Config) (all_var_names : list string)
    (ops : list N) (h : Host) :
  run_groups (group_body this "check_copy_nodal_vars" all_var_names) ops h =
  (signal (init_nts_from_file this && bool_decide (ops <> [])) h, Done tt).
Proof.
  revert h. induction ops as [|op ops IH]; intros h; cbn [run_groups].
  - by rewrite andb_false_r.
  - unfold mbind, Act_bind. rewrite group_body_check, IH, signal_signal.
    by destruct (init_nts_from_file this), ops.
Qed.

Lemma temperature_part_check (this : Config) (h : Host) :
  temperature_part this "check_copy_nodal_vars" h =
  (signal (create_temperature_var this && init_temperature_from_file this) h,
   Done tt).
Proof.
  unfold temperature_part. simpl.
  by destruct (create_temperature_var this), (init_temperature_from_file this).
Qed.

Lemma groups_nonempty (n : N) : bool_decide (groups n <> []) = (1 <=? n).
Proof.
  destruct (N.leb_spec 1 n) as [Hn|Hn].
  - rewrite groups_split by done. apply bool_decide_eq_true_2. discriminate.
  - assert (n = 0) as -> by lia. apply bool_decide_eq_false_2. by intros [].
Qed.

Lemma act_check (this : Config) (fuel : nat) (h : Host) :
  _num_groups this < UINT_MAX ->
  (N.to_nat (_num_groups this) < fuel)%nat ->
  act fuel this "check_copy_nodal_vars" h =
    Some (signal (restart_signalled this) h, Done tt).
Proof.
  intros Hn Hfuel. rewrite act_run by done. unfold mbind, Act_bind.
  rewrite run_groups_check, temperature_part_check, signal_signal.
  by rewrite groups_nonempty.
Qed.

(** C9, as the code has it.  Task [check_copy_nodal_vars] calls
    [setExodusFileRestart(true)] if and only if the neutron fields are read
    from file and there is at least one group, or the temperature variable
    is created and read from file; it submits nothing, and running it
    again leaves the host as the first run left it. *)
Theorem check_restart (this : Config) (fuel : nat) (h : Host) :
  _num_groups this < UINT_MAX ->
  (N.to_nat (_num_groups this) < fuel)%nat ->
  let h' := signal (restart_signalled this) h in
  act fuel this "check_copy_nodal_vars" h = Some (h', Done tt) /\
  act fuel this "check_copy_nodal_vars" h' = Some (h', Done tt) /\
  calls h' = calls h /\
  exodusFileRestart h' = restart_signalled this || exodusFileRestart h /\
  (restart_signalled this = true <->
     init_nts_from_file this = true /\ 1 <= _num_groups this \/
     create_temperature_var this = true /\ init_temperature_from_file this = true).
Proof.
  intros Hn Hfuel h'. subst h'. rewrite !act_check by done.
  rewrite signal_signal, orb_diag.
  split; [done|]. split; [done|].
  split; [by destruct (restart_signalled this)|].
  split; [by destruct (restart_signalled this)|].
  unfold restart_signalled.
  rewrite orb_true_iff, !andb_true_iff, N.leb_le. done.
Qed.

End Proofs.

(** * Further properties *)

(** ** What any task may do to the host *)

Lemma Orderly_refl (task : string) (h : Host) : Orderly task h (h, Done tt).
Proof.
  split; [|split]; [|by left|done].
  exists []. by rewrite app_nil_r.
Qed.

Lemma Orderly_trans (task : string) (h h1 : Host) (r : Host * Outcome unit) :
  Orderly task h (h1, Done tt) -> Orderly task h1 r -> Orderly task h r.
Proof.
  intros ((l1 & Hl1 & HP1) & Hflag1 & _) ((l2 & Hl2 & HP2) & Hflag2 & Herr).
  simpl in *. split; [|split]; [| |done].
  - exists (l1 ++ l2)%list. rewrite Hl2, Hl1, app_assoc.
    split; [done|]. by apply Forall_app.
  - destruct Hflag2 as [->|[-> ->]]; [done|]. by right.
Qed.

Lemma OrderlyAct_ret (task : string) : OrderlyAct task (mret tt).
Proof. intros h. apply Orderly_refl. Qed.

Lemma OrderlyAct_submit (task : string) (c : Call) :
  task_of_call c = task -> OrderlyAct task (submit c).
Proof.
  intros Hc h. split; [|split]; [|by left|done].
  exists [c]. split; [done|]. by constructor.
Qed.

Lemma OrderlyAct_signal : OrderlyAct "check_copy_nodal_vars" (setExodusFileRestart true).
Proof.
  intros h. split; [|split]; [|by right|done].
  exists []. by rewrite app_nil_r.
Qed.

Lemma OrderlyAct_conflict : OrderlyAct "add_ic" (mooseError ConflictingOptionError).
Proof.
  intros h. split; [|split]; [|by left|by intros msg [= <-]].
  exists []. by rewrite app_nil_r.
Qed.

Lemma OrderlyAct_bind (task : string) (m1 m2 : Act unit) :
  OrderlyAct task m1 -> OrderlyAct task m2 -> OrderlyAct task (m1 ;; m2).
Proof.
  intros H1 H2 h. unfold mbind, Act_bind.
  specialize (H1 h). destruct (m1 h) as [h1 [[]|msg]]; [|done].
  by eapply Orderly_trans.
Qed.

Lemma OrderlyAct_when (task : string) (b : bool) (m : Act unit) :
  (b = true -> OrderlyAct task m) -> OrderlyAct task (when b m).
Proof. destruct b; simpl; [by intros Hm; apply Hm|]. intros _. apply OrderlyAct_ret. Qed.

Lemma OrderlyAct_if (task : string) (b : bool) (m1 m2 : Act unit) :
  (b = true -> OrderlyAct task m1) -> (b = false -> OrderlyAct task m2) ->
  OrderlyAct task (if b then m1 else m2).
Proof. destruct b; intros H1 H2; [by apply H1|by apply H2]. Qed.

(** Splits a composition into its calls, and names the task in the branches
    that test it. *)
Ltac orderly :=
  repeat first
    [ apply OrderlyAct_bind
    | apply OrderlyAct_when; intros ?
    | apply OrderlyAct_if; intros ?
    | apply OrderlyAct_ret ];
  repeat match goal with
         | H : _ && _ = true |- _ => apply andb_true_iff in H as [? ?]
         | H : String.eqb _ _ = true |- _ => apply String.eqb_eq in H; subst
         end;
  first [ apply OrderlyAct_signal | apply OrderlyAct_conflict
        | apply OrderlyAct_submit ].

(** Decides that a string is none of a list of literals. *)
Ltac not_listed :=
  let Hin := fresh in
  intros Hin;
  repeat (apply elem_of_cons in Hin as [Hin|Hin]; [discriminate|]);
  by apply elem_of_nil in Hin.

Section Extras.

Context `{Framework}.

Lemma task_of_linAuxVariable (this : Config) (aux_var_name : string) :
  task_of_call (linAuxVariable this aux_var_name) = "add_aux_variable".
Proof. unfold linAuxVariable. by case_decide. Qed.

Lemma group_body_Orderly (this : Config) (task : string)
    (all_var_names : list string) (op : N) :
  OrderlyAct task (group_body this task all_var_names op).
Proof.
  unfold group_body, addLinAux, addNtIC, addVacuumBC, NtAction_addVariable,
    addNtKernel, addCoupledFissionKernel, addDelayedNeutronSource.
  cbv zeta.
  destruct (vacuum_boundaries this), (nt_ic_function this);
    orderly; try done; apply task_of_linAuxVariable.
Qed.

Lemma temperature_part_Orderly (this : Config) (task : string) :
  OrderlyAct task (temperature_part this task).
Proof. unfold temperature_part. cbv zeta. orderly; done. Qed.

Lemma for_op_Orderly (task : string) (body : N -> Act unit) (n : N) :
  (forall op, OrderlyAct task (body op)) ->
  forall (fuel : nat) (op : N) (h : Host) (r : Host * Outcome unit),
    for_op fuel op n body h = Some r -> Orderly task h r.
Proof.
  intros Hbody. induction fuel as [|fuel IH]; intros op h r; cbn [for_op]; [done|].
  destruct (op <=? n); [|intros [= <-]; apply Orderly_refl].
  specialize (Hbody op h). destruct (body op h) as [h1 [[]|msg]].
  - intros Hrest. eapply Orderly_trans; [done|]. by eapply IH.
  - by intros [= <-].
Qed.

Lemma act_Orderly (this : Config) (task : string) (fuel : nat) (h : Host)
    (r : Host * Outcome unit) :
  act fuel this task h = Some r -> Orderly task h r.
Proof.
  unfold act. destruct (push_names _ _ _ _ _) as [all_var_names|]; [|done].
  destruct (for_op _ _ _ _ _) as [[h1 [[]|msg]]|] eqn:Hloop; [| |done].
  - intros [= <-]. eapply Orderly_trans.
    + eapply for_op_Orderly; [|done]. intros op. apply group_body_Orderly.
    + apply temperature_part_Orderly.
  - intros [= <-]. eapply for_op_Orderly; [|done].
    intros op. apply group_body_Orderly.
Qed.

(** X4.  Whatever the task and the parameters, a run of [act] that returns,
    with or without error, has only appended to the calls the host already
    held, and every call it appended is of the kind of the task it ran
    under. *)
Theorem act_appends_calls_of_task (this : Config) (task : string) (fuel : nat)
    (h h' : Host) (o : Outcome unit) :
  act fuel this task h = Some (h', o) ->
  exists l, calls h' = (calls h ++ l)%list /\
            Forall (fun c => task_of_call c = task) l.
Proof. intros Hrun. by destruct (act_Orderly _ _ _ _ _ Hrun) as (Hcalls & _). Qed.

(** X5.  A run of [act] never lowers the restart flag, and leaves it as it
    was under every task but [check_copy_nodal_vars]. *)
Theorem restart_flag_only_raised_by_check (this : Config) (task : string)
    (fuel : nat) (h h' : Host) (o : Outcome unit) :
  act fuel this task h = Some (h', o) ->
  (task <> "check_copy_nodal_vars" -> exodusFileRestart h' = exodusFileRestart h) /\
  (exodusFileRestart h = true -> exodusFileRestart h' = true).
Proof.
  intros Hrun. destruct (act_Orderly _ _ _ _ _ Hrun) as (_ & Hflag & _).
  simpl in Hflag. split.
  - intros Htask. by destruct Hflag as [|[]].
  - intros Hup. destruct Hflag as [->|[_ ->]]; done.
Qed.

Lemma for_op_no_error (body : N -> Act unit) (n : N) :
  (forall op h, exists h', body op h = (h', Done tt)) ->
  forall (fuel : nat) (op : N) (h h' : Host) (o : Outcome unit),
    for_op fuel op n body h = Some (h', o) -> o = Done tt.
Proof.
  intros Hbody. induction fuel as [|fuel IH]; intros op h h' o; cbn [for_op]; [done|].
  destruct (op <=? n); [|by intros [= _ <-]].
  destruct (Hbody op h) as [h1 ->]. apply IH.
Qed.

Lemma for_op_first_error (body : N -> Act unit) (n : N) (msg : string) :
  (forall op h, body op h = (h, MooseError msg)) ->
  forall (fuel : nat) (op : N) (h h' : Host) (msg' : string),
    for_op fuel op n body h = Some (h', MooseError msg') -> h' = h /\ op <= n.
Proof.
  intros Hbody [|fuel] op h h' msg'; cbn [for_op]; [done|].
  destruct (N.leb_spec op n); [|done].
  rewrite Hbody. by intros [= <- _].
Qed.

(** X3.  The only error [act] raises is the conflict of initial conditions:
    a run that ends in an error ran under task [add_ic], with [jac_test] and
    [nt_ic_function] both set, the neutron fields not read from file and at
    least one group, and it has left the host exactly as it found it. *)
Theorem act_error_is_ic_conflict (this : Config) (task : string) (fuel : nat)
    (h h' : Host) (msg : string) :
  act fuel this task h = Some (h', MooseError msg) ->
  task = "add_ic" /\ msg = ConflictingOptionError /\
  jac_test this = true /\ isParamValid (nt_ic_function this) = true /\
  init_nts_from_file this = false /\ 1 <= _num_groups this /\ h' = h.
Proof.
  intros Hrun.
  destruct (act_Orderly _ _ _ _ _ Hrun) as (_ & _ & Herr).
  pose proof (Herr msg eq_refl) as [Htask Hmsg]. clear Herr. subst task msg.
  split; [done|]. split; [done|].
  unfold act in Hrun.
  destruct (push_names _ _ _ _ _) as [all_var_names|]; [|done].
  destruct (for_op _ _ _ _ _) as [[h1 [[]|msg]]|] eqn:Hloop; [| |done].
  { injection Hrun as Htemp.
    by rewrite (temperature_part_silent this "add_ic") in Htemp by set_solver. }
  injection Hrun as -> ->.
  destruct (init_nts_from_file this) eqn:Hrestart.
  { apply for_op_no_error in Hloop; [done|]. intros op h0. eexists.
    by apply group_body_add_ic_restart. }
  destruct (jac_test this && isParamValid (nt_ic_function this)) eqn:Hconflict.
  - apply andb_true_iff in Hconflict as [Hjac Hfun].
    apply for_op_first_error with (msg := ConflictingOptionError) in Hloop as [-> Hone].
    + done.
    + intros op h0. by apply group_body_add_ic_conflict.
  - apply for_op_no_error in Hloop; [done|]. intros op h0.
    destruct (group_body_add_ic this all_var_names op Hrestart Hconflict)
      as (ic & Hic & _).
    eexists. apply Hic.
Qed.

(** ** Task [copy_nodal_vars] *)

Lemma group_body_copy (this : Config) (all_var_names : list string) (op : N) :
  Emits (group_body this "copy_nodal_vars" all_var_names op)
        (if init_nts_from_file this
         then [addVariableToCopy (variableName this op) (variableName this op) "LATEST"]
         else []).
Proof.
  unfold group_body, addLinAux. simpl. emits. by repeat case_match.
Qed.

Lemma temperature_part_copy (this : Config) :
  Emits (temperature_part this "copy_nodal_vars")
        (if create_temperature_var this && init_temperature_from_file this
         then [addVariableToCopy "temp" "temp" "LATEST"] else []).
Proof.
  unfold temperature_part. simpl. emits. by repeat case_match.
Qed.

(** X1.  Task [copy_nodal_vars] asks the host to copy, from the latest
    stored state, each group variable onto itself when the neutron fields
    are read from file, in the order of the groups, and then the
    temperature variable onto itself when it is both created and read from
    file; it asks for nothing else. *)
Theorem copy_nodal_vars_calls (this : Config) (fuel : nat) (h : Host) :
  _num_groups this < UINT_MAX ->
  (N.to_nat (_num_groups this) < fuel)%nat ->
  act fuel this "copy_nodal_vars" h =
    Some (submitted h
            ((if init_nts_from_file this
              then (fun i => addVariableToCopy (variableName this i)
                                               (variableName this i) "LATEST")
                     <$> groups (_num_groups this)
              else []) ++
             (if create_temperature_var this && init_temperature_from_file this
              then [addVariableToCopy "temp" "temp" "LATEST"] else []))%list,
          Done tt).
Proof.
  intros Hn Hfuel.
  rewrite (act_emits this "copy_nodal_vars" fuel h _ _ Hn Hfuel
             (group_body_copy this _) (temperature_part_copy this)).
  destruct (init_nts_from_file this).
  - by rewrite bind_single_fmap.
  - by rewrite bind_const_nil.
Qed.

(** ** Tasks the action is not registered for *)

Lemma group_body_unregistered (this : Config) (task : string)
    (all_var_names : list string) (op : N) :
  task ∉ registered_tasks ->
  Emits (group_body this task all_var_names op) [].
Proof.
  intros Hun.
  assert (forall t, t ∈ registered_tasks -> String.eqb task t = false) as Hf.
  { intros t Ht. apply String.eqb_neq. by intros ->. }
  unfold group_body, addLinAux.
  rewrite !Hf by (unfold registered_tasks; repeat constructor).
  simpl. emits. by repeat case_match.
Qed.

Lemma temperature_part_other (this : Config) (task : string) :
  task ∉ ["add_variable"; "check_copy_nodal_vars"; "copy_nodal_vars"] ->
  Emits (temperature_part this task) [].
Proof.
  intros Hun.
  assert (forall t, t ∈ ["add_variable"; "check_copy_nodal_vars"; "copy_nodal_vars"] ->
                    String.eqb task t = false) as Hf.
  { intros t Ht. apply String.eqb_neq. by intros ->. }
  unfold temperature_part. cbv zeta.
  rewrite !Hf by set_solver.
  simpl. emits. by repeat case_match.
Qed.

(** X2.  Under a task it is not registered for, [act] returns without
    error and without having touched the host. *)
Theorem unregistered_task_is_skipped (this : Config) (task : string) (fuel : nat)
    (h : Host) :
  task ∉ registered_tasks ->
  _num_groups this < UINT_MAX ->
  (N.to_nat (_num_groups this) < fuel)%nat ->
  act fuel this task h = Some (h, Done tt).
Proof.
  intros Hun Hn Hfuel.
  rewrite act_emits with (f := fun _ => []) (l := []); [|done..| |].
  - by rewrite bind_const_nil, submitted_nil.
  - intros op. by apply group_body_unregistered.
  - apply temperature_part_other. intros Hin. apply Hun.
    unfold registered_tasks.
    repeat (apply elem_of_cons in Hin as [->|Hin]; [by repeat constructor|]).
    by apply elem_of_nil in Hin.
Qed.

(** ** No group *)

(** X6.  With [num_groups = 0] the group loop is not entered: task
    [add_variable] registers the temperature variable alone, if it is to
    be created, and every task other than [add_variable],
    [check_copy_nodal_vars] and [copy_nodal_vars] returns without error
    and without having touched the host, whatever the other parameters,
    conflicting initial-condition options included. *)
Theorem no_group_no_object (this : Config) (task : string) (fuel : nat) (h : Host) :
  _num_groups this = 0 ->
  (0 < fuel)%nat ->
  act fuel this "add_variable" h =
    Some (submitted h (if create_temperature_var this
                       then [temperatureVariable this "temp"] else []),
          Done tt) /\
  (task ∉ ["add_variable"; "check_copy_nodal_vars"; "copy_nodal_vars"] ->
   act fuel this task h = Some (h, Done tt)).
Proof.
  intros Hzero Hfuel.
  assert (_num_groups this < UINT_MAX) as Hn by by rewrite Hzero.
  assert (N.to_nat (_num_groups this) < fuel)%nat as Hfuel' by (rewrite Hzero; lia).
  split.
  - rewrite act_run by done. rewrite Hzero. f_equal.
    change (groups 0) with (@nil N). cbn [run_groups].
    apply (Emits_bind _ _ [] _ Emits_ret (temperature_part_add_variable this)).
  - intros Htask. rewrite act_run by done. rewrite Hzero. f_equal.
    change (groups 0) with (@nil N). cbn [run_groups].
    rewrite <- (submitted_nil h) at 2.
    apply (Emits_bind _ _ [] [] Emits_ret). by apply temperature_part_other.
Qed.

(** ** Exponential form, any number of groups *)

(** X7.  In exponential form, task [add_aux_variable] registers one
    auxiliary variable per group, named [variableName(i) ++ "_lin"], and task
    [add_aux_kernel] one [Density] kernel per group, named
    [Density_ ++ variableName(i) ++ "_lin"], set on that auxiliary variable
    and taking the group's variable as its [density_log]; both in the
    order of the groups. *)
Theorem exp_form_auxiliaries_per_group (this : Config) (fuel : nat) (h : Host) :
  use_exp_form this = true ->
  _num_groups this < UINT_MAX ->
  (N.to_nat (_num_groups this) < fuel)%nat ->
  exists variables kernels,
    act fuel this "add_aux_variable" h = Some (submitted h variables, Done tt) /\
    act fuel this "add_aux_kernel" h = Some (submitted h kernels, Done tt) /\
    Forall2 (fun i c => exists fe_type subdomains,
               c = addAuxVariable (variableName this i ++ "_lin") fe_type subdomains)
            (groups (_num_groups this)) variables /\
    Forall2 (fun i c => exists params,
               c = addAuxKernel "Density" ("Density_" ++ variableName this i ++ "_lin")
                                params /\
               params !! "variable" = Some (VString (variableName this i ++ "_lin")) /\
               params !! "density_log" = Some (VStrings [variableName this i]))
            (groups (_num_groups this)) kernels.
Proof.
  intros Hexp Hn Hfuel.
  pose proof (act_emits this "add_aux_variable" fuel h _ []
                Hn Hfuel (group_body_add_aux_variable this _)) as Hvar.
  pose proof (act_emits this "add_aux_kernel" fuel h _ []
                Hn Hfuel (group_body_add_aux_kernel this _)) as Hker.
  rewrite Hexp, bind_single_fmap, app_nil_r in Hvar, Hker.
  do 2 eexists.
  split; [apply Hvar, temperature_part_silent; set_solver|].
  split; [apply Hker, temperature_part_silent; set_solver|].
  split; apply Forall2_fmap_r, Forall_Forall2_diag, Forall_forall; intros i _.
  - apply linAuxVariable_name.
  - eexists. split; [done|]. apply densityParams_variable.
Qed.

(** ** The kernels of task [add_kernel] *)

Lemma fmap_bind_list {A B C} (g : B -> C) (f : A -> list B) (l : list A) :
  g <$> (l ≫= f) = l ≫= (fun a => g <$> f a).
Proof.
  induction l as [|a l IH]; csimpl; [done|].
  by rewrite fmap_app, IH.
Qed.

Lemma length_bind_const {A B} (f : A -> list B) (k : nat) (l : list A) :
  (forall a, length (f a) = k) -> length (l ≫= f) = (length l * k)%nat.
Proof.
  intros Hf. induction l as [|a l IH]; csimpl; [done|].
  by rewrite length_app, Hf, IH.
Qed.

Lemma kernel_calls_schedule (this : Config) (all_var_names : list string) (i : N) :
  (fun c => (call_type c, call_name c)) <$> kernel_calls this all_var_names i =
  (fun t => (t, t ++ "_" ++ variableName this i)) <$> kernel_types this.
Proof. unfold kernel_calls, kernel_types. by repeat case_match. Qed.

(** X8.  Task [add_kernel] registers the kernels group by group, in the
    order of the groups, and for each group in the order time derivative
    (transient runs only), diffusion, removal, in-scatter (more than one
    group only), fission, delayed-neutron source (with delayed neutrons
    only), each under the name [type ++ "_" ++ variableName(i)]; the number
    of kernels is the number of groups times the number of kernel types in
    use. *)
Theorem add_kernel_schedule (this : Config) (fuel : nat) (h : Host) :
  _num_groups this < UINT_MAX ->
  (N.to_nat (_num_groups this) < fuel)%nat ->
  exists kernels,
    act fuel this "add_kernel" h = Some (submitted h kernels, Done tt) /\
    (fun c => (call_type c, call_name c)) <$> kernels =
      groups (_num_groups this)
        ≫= (fun i => (fun t => (t, t ++ "_" ++ variableName this i))
                       <$> kernel_types this) /\
    length kernels = (N.to_nat (_num_groups this) * length (kernel_types this))%nat.
Proof.
  intros Hn Hfuel. eexists. split; [by apply act_add_kernel|]. split.
  - rewrite fmap_bind_list. apply list_bind_ext; [|done]. intros i.
    apply kernel_calls_schedule.
  - rewrite <- length_groups. apply length_bind_const. intros i.
    rewrite <- (length_fmap (fun c => (call_type c, call_name c))).
    by rewrite kernel_calls_schedule, length_fmap.
Qed.

Lemma Forall_if_then {A} (P : A -> Prop) (b : bool) (l : list A) :
  Forall P l -> Forall P (if b then l else []).
Proof. by destruct b. Qed.

Lemma Forall_if_else {A} (P : A -> Prop) (b : bool) (l : list A) :
  Forall P l -> Forall P (if b then [] else l).
Proof. by destruct b. Qed.

Lemma inScatterParams_lookup (this : Config) (op : N) (var_name : string)
    (all_var_names : list string) :
  let params := ntKernelParams this op var_name "InScatter" all_var_names in
  params !! "group_fluxes" = Some (VStrings all_var_names) /\
  params !! "num_groups" = Some (VUInt (_num_groups this)) /\
  params !! "sss2_input" = Some (VBool (sss2_input this)).
Proof.
  unfold ntKernelParams. cbn [String.eqb Ascii.eqb Bool.eqb]. cbv zeta.
  repeat split; rewrite ?lookup_set_ne by done; apply lookup_set_eq.
Qed.

Lemma coupledFissionParams_lookup (this : Config) (op : N) (var_name : string)
    (all_var_names : list string) :
  let params := coupledFissionParams this op var_name all_var_names in
  params !! "group_fluxes" = Some (VStrings all_var_names) /\
  params !! "num_groups" = Some (VUInt (_num_groups this)) /\
  params !! "account_delayed" = Some (VBool (account_delayed this)) /\
  params !! "eigenvalue_scaling" = Some (VReal (eigenvalue_scaling this)) /\
  (eigen this = true -> params !! "extra_vector_tags" = Some (VStrings ["eigen"])).
Proof.
  unfold coupledFissionParams. cbv zeta.
  destruct (eigen this); repeat split; intros; try done;
    rewrite ?lookup_set_ne by done; apply lookup_set_eq.
Qed.

(** X9.  The coupling data of the kernels of task [add_kernel]: every
    in-scatter and every fission kernel is given the names of all group
    variables, in the order of the groups, and the number of groups; the
    in-scatter kernel also the [sss2_input] switch, the fission kernel also
    the delayed-neutron switch, the eigenvalue scaling and, in eigenvalue
    runs, the [eigen] vector tag; every delayed-neutron source is given the
    number of precursor groups. *)
Theorem add_kernel_coupling (this : Config) (fuel : nat) (h : Host) :
  _num_groups this < UINT_MAX ->
  (N.to_nat (_num_groups this) < fuel)%nat ->
  let fluxes := variableName this <$> groups (_num_groups this) in
  exists kernels,
    act fuel this "add_kernel" h = Some (submitted h kernels, Done tt) /\
    length fluxes = N.to_nat (_num_groups this) /\
    Forall (fun c =>
      let params := call_params c in
      (call_type c = "InScatter" ->
         params !! "group_fluxes" = Some (VStrings fluxes) /\
         params !! "num_groups" = Some (VUInt (_num_groups this)) /\
         params !! "sss2_input" = Some (VBool (sss2_input this))) /\
      (call_type c = "CoupledFissionKernel" ->
         params !! "group_fluxes" = Some (VStrings fluxes) /\
         params !! "num_groups" = Some (VUInt (_num_groups this)) /\
         params !! "account_delayed" = Some (VBool (account_delayed this)) /\
         params !! "eigenvalue_scaling" = Some (VReal (eigenvalue_scaling this)) /\
         (eigen this = true ->
            params !! "extra_vector_tags" = Some (VStrings ["eigen"]))) /\
      (call_type c = "DelayedNeutronSource" ->
         params !! "num_precursor_groups" =
           Some (VUInt (_num_precursor_groups this)))) kernels.
Proof.
  intros Hn Hfuel fluxes. eexists. split; [by apply act_add_kernel|].
  split; [unfold fluxes; by rewrite length_fmap, length_groups|].
  apply Forall_bind, Forall_forall. intros i _.
  fold fluxes. change (all_var_names_of this) with fluxes.
  unfold kernel_calls. cbv zeta.
  repeat first [ apply Forall_app_2 | apply Forall_if_then | apply Forall_if_else
               | apply Forall_cons_2 | apply Forall_nil_2 ];
    cbn [call_type call_params]; (split; [|split]); intros Htype;
    try discriminate Htype.
  all: first [ apply inScatterParams_lookup
             | apply coupledFissionParams_lookup
             | apply lookup_set_eq ].
Qed.

(** ** Names are not reused *)

Lemma string_app_inj (base s1 s2 : string) : base ++ s1 = base ++ s2 -> s1 = s2.
Proof. induction base as [|a base IH]; simpl; [done|]. intros [= E]. by apply IH. Qed.

Lemma NoDup_groups (n : N) : NoDup (groups n).
Proof.
  unfold groups, groups_from. apply NoDup_fmap_2; [|apply NoDup_seq].
  intros x y. apply Nat2N.inj.
Qed.

Lemma variableName_inj (this : Config) (i j : N) :
  variableName this i = variableName this j -> i = j.
Proof. intros E. by apply stringify_inj, (string_app_inj (_var_name_base this)). Qed.

(** A decimal numeral starts with a digit. *)
Lemma stringify_head (n : N) :
  exists c s, stringify n = String c s /\
              c ∈ ["0"; "1"; "2"; "3"; "4"; "5"; "6"; "7"; "8"; "9"]%char.
Proof.
  unfold stringify.
  assert (N.to_uint n <> Decimal.Nil) as Hnil.
  { destruct n; [done|]. apply DecimalPos.Unsigned.to_uint_nonnil. }
  destruct (N.to_uint n); [done|..]; simpl; do 2 eexists; (split; [done|]);
    repeat constructor.
Qed.

Lemma variableName_not_temp (this : Config) (i : N) : variableName this i <> "temp".
Proof.
  unfold variableName, group_name.
  destruct (stringify_head i) as (c & s & -> & Hc).
  assert (c <> "t" /\ c <> "e" /\ c <> "m" /\ c <> "p")%char as (Ht & He & Hm & Hp).
  { repeat (apply elem_of_cons in Hc as [->|Hc]); [done..|].
    by apply elem_of_nil in Hc. }
  destruct (_var_name_base this) as [|a1 [|a2 [|a3 [|a4 [|a5 base]]]]];
    simpl; intros [=]; congruence.
Qed.

(** X11.  Task [add_variable] never registers two variables under the same
    name: the names of the groups differ from one another by their decimal
    suffix, and none of them is the name of the temperature variable. *)
Theorem add_variable_names_distinct (this : Config) (fuel : nat) (h : Host) :
  _num_groups this < UINT_MAX ->
  (N.to_nat (_num_groups this) < fuel)%nat ->
  exists variables,
    act fuel this "add_variable" h = Some (submitted h variables, Done tt) /\
    NoDup (call_name <$> variables).
Proof.
  intros Hn Hfuel. eexists. split.
  { apply (act_emits this "add_variable" fuel h _ _ Hn Hfuel
             (group_body_add_variable this _) (temperature_part_add_variable this)). }
  rewrite bind_single_fmap, fmap_app, <- list_fmap_compose.
  apply NoDup_app. split; [|split].
  - apply NoDup_fmap_2_strong; [|apply NoDup_groups].
    intros i j _ _. apply variableName_inj.
  - intros name Hgroup Htemp.
    apply list_elem_of_fmap in Hgroup as (i & -> & _).
    destruct (create_temperature_var this); [|by apply elem_of_nil in Htemp].
    apply list_elem_of_singleton in Htemp. by apply variableName_not_temp in Htemp.
  - destruct (create_temperature_var this); [apply NoDup_singleton|apply NoDup_nil_2].
Qed.

Lemma kernel_types_known (this : Config) (t : string) :
  t ∈ kernel_types this ->
  t ∈ ["NtTimeDerivative"; "GroupDiffusion"; "SigmaR"; "InScatter";
       "CoupledFissionKernel"; "DelayedNeutronSource"].
Proof.
  unfold kernel_types. rewrite !elem_of_app.
  intros [Ht|[Ht|[Ht|[Ht|Ht]]]]; revert Ht; repeat case_match;
    rewrite ?elem_of_cons, ?elem_of_nil; intros Ht;
    repeat (destruct Ht as [->|Ht]); try done; by repeat constructor.
Qed.

Lemma NoDup_kernel_types (this : Config) : NoDup (kernel_types this).
Proof.
  unfold kernel_types.
  repeat case_match; simpl; repeat (apply NoDup_cons_2; [not_listed|]);
    apply NoDup_nil_2.
Qed.

(** The type is read off the first letter of a kernel's name. *)
Lemma kernel_name_inj (t1 t2 v1 v2 : string) :
  t1 ∈ ["NtTimeDerivative"; "GroupDiffusion"; "SigmaR"; "InScatter";
        "CoupledFissionKernel"; "DelayedNeutronSource"] ->
  t2 ∈ ["NtTimeDerivative"; "GroupDiffusion"; "SigmaR"; "InScatter";
        "CoupledFissionKernel"; "DelayedNeutronSource"] ->
  t1 ++ "_" ++ v1 = t2 ++ "_" ++ v2 -> t1 = t2 /\ v1 = v2.
Proof.
  intros H1 H2.
  repeat (apply elem_of_cons in H1 as [->|H1]); [..|by apply elem_of_nil in H1];
    (repeat (apply elem_of_cons in H2 as [->|H2]); [..|by apply elem_of_nil in H2]);
    simpl; intros [=]; done.
Qed.

(** X12.  Task [add_kernel] never registers two kernels under the same
    name. *)
Theorem add_kernel_names_distinct (this : Config) (fuel : nat) (h : Host) :
  _num_groups this < UINT_MAX ->
  (N.to_nat (_num_groups this) < fuel)%nat ->
  exists kernels,
    act fuel this "add_kernel" h = Some (submitted h kernels, Done tt) /\
    NoDup (call_name <$> kernels).
Proof.
  intros Hn Hfuel. eexists. split; [by apply act_add_kernel|].
  rewrite fmap_bind_list.
  assert (forall i, call_name <$> kernel_calls this (all_var_names_of this) i =
                    (fun t => t ++ "_" ++ variableName this i) <$> kernel_types this)
    as Hnames.
  { intros i.
    pose proof (f_equal (fmap snd) (kernel_calls_schedule this (all_var_names_of this) i))
      as E.
    by rewrite <- !list_fmap_compose in E. }
  rewrite (list_bind_ext _ _ _ _ Hnames eq_refl).
  apply NoDup_bind; [| |apply NoDup_groups].
  - intros i j name _ _ Hi Hj.
    apply list_elem_of_fmap in Hi as (t1 & -> & Ht1).
    apply list_elem_of_fmap in Hj as (t2 & E & Ht2).
    apply kernel_name_inj in E as [_ E]; [|by apply (kernel_types_known this)..].
    by apply variableName_inj in E.
  - intros i _. apply NoDup_fmap_2_strong; [|apply NoDup_kernel_types].
    intros t1 t2 Ht1 Ht2 E.
    by apply kernel_name_inj in E as [E _]; [|by apply (kernel_types_known this)..].
Qed.

(** ** The temperature variable *)

(** X13.  When the temperature variable is to be created, it is the last
    variable task [add_variable] registers, under the name [temp]; it is of
    first order whether [dg_for_temperature] is set or not, of family
    [L2_LAGRANGE] when it is set and [LAGRANGE] otherwise, and scaled by
    [temp_scaling], or by 1 when that is not given. *)
Theorem temperature_variable_registered (this : Config) (fuel : nat) (h : Host) :
  create_temperature_var this = true ->
  _num_groups this < UINT_MAX ->
  (N.to_nat (_num_groups this) < fuel)%nat ->
  exists group_variables params,
    act fuel this "add_variable" h =
      Some (submitted h
              (group_variables ++
               [addVariable
                  (variableType
                     {| order := FIRST;
                        family := if dg_for_temperature this
                                  then L2_LAGRANGE else LAGRANGE |})
                  "temp" params])%list,
            Done tt) /\
    length group_variables = N.to_nat (_num_groups this) /\
    params !! "order" = Some (VEnum "FIRST") /\
    params !! "family" =
      Some (VEnum (if dg_for_temperature this then "L2_LAGRANGE" else "LAGRANGE")) /\
    params !! "scaling" =
      Some (VReals [match temp_scaling this with Some s => s | None => 1%Q end]).
Proof.
  intros Hcreate Hn Hfuel.
  pose proof (act_emits this "add_variable" fuel h _ _ Hn Hfuel
                (group_body_add_variable this _) (temperature_part_add_variable this))
    as Hrun.
  rewrite Hcreate, bind_single_fmap in Hrun.
  do 2 eexists. split; [|split].
  - rewrite Hrun. unfold temperatureVariable. cbv zeta.
    assert ((if dg_for_temperature this then FIRST else FIRST) = FIRST) as ->
      by by destruct (dg_for_temperature this).
    done.
  - by rewrite length_fmap, length_groups.
  - cbn [order family]. split; [|split].
    + rewrite !lookup_set_ne by done. apply lookup_set_eq.
    + rewrite lookup_set_ne, lookup_set_eq by done.
      by destruct (dg_for_temperature this).
    + apply lookup_set_eq.
Qed.

(** ** The parameters of the initial conditions *)

Lemma lookup_set_if_valid_block (o : option (list string)) (p : gmap string Value) :
  set_if_valid "block" VStrings o p !! "block" =
  match o with Some b => Some (VStrings b) | None => p !! "block" end.
Proof. destruct o; simpl; [apply lookup_set_eq|done]. Qed.

Lemma group_body_add_ic_block (this : Config) (all_var_names : list string) (op : N) :
  init_nts_from_file this = false ->
  jac_test this && isParamValid (nt_ic_function this) = false ->
  exists ic,
    Emits (group_body this "add_ic" all_var_names op) [ic] /\
    task_of_call ic = "add_ic" /\
    call_params ic !! "block" =
      match block this with
      | Some b => Some (VStrings b)
      | None => getValidParams (call_type ic) !! "block"
      end /\
    (jac_test this = true ->
     call_type ic = "RandomIC" /\
     call_params ic !! "min" = Some (VReal 0) /\
     call_params ic !! "max" = Some (VReal 1)).
Proof.
  intros Hrestart Hok. unfold group_body, addNtIC, addLinAux.
  rewrite Hrestart, Hok.
  destruct (jac_test this); [|destruct (nt_ic_function this) as [function|]];
    simpl in Hok |- *; try done;
    (eexists; split; [emits; by repeat case_match|]);
    cbn [task_of_call call_params call_type]; (split; [done|]).
  - unfold randomICParams. cbv zeta. split.
    + rewrite !lookup_set_ne, lookup_set_if_valid_block by done.
      destruct (block this); [done|]. by rewrite lookup_set_ne.
    + intros _. split; [done|].
      split; rewrite ?lookup_set_ne by done; apply lookup_set_eq.
  - unfold functionICParams. cbv zeta. split; [|done].
    rewrite !lookup_set_ne, lookup_set_if_valid_block by done.
    destruct (block this); [done|]. by rewrite lookup_set_ne.
  - unfold constantICParams. cbv zeta. split; [|done].
    destruct (use_exp_form this);
      rewrite !lookup_set_ne, lookup_set_if_valid_block by done;
      (destruct (block this); [done|]); by rewrite lookup_set_ne.
Qed.

(** X14.  Every initial condition task [add_ic] registers is restricted to
    the blocks of the [block] parameter when that is given, and keeps the
    factory's own [block] entry of its type when it is not; with [jac_test]
    set, every one of them is a [RandomIC] drawing between 0 and 1. *)
Theorem add_ic_parameters (this : Config) (fuel : nat) (h : Host) :
  init_nts_from_file this = false ->
  jac_test this && isParamValid (nt_ic_function this) = false ->
  _num_groups this < UINT_MAX ->
  (N.to_nat (_num_groups this) < fuel)%nat ->
  exists ics,
    act fuel this "add_ic" h = Some (submitted h ics, Done tt) /\
    length ics = N.to_nat (_num_groups this) /\
    Forall (fun ic =>
      call_params ic !! "block" =
        match block this with
        | Some b => Some (VStrings b)
        | None => getValidParams (call_type ic) !! "block"
        end /\
      (jac_test this = true ->
       call_type ic = "RandomIC" /\
       call_params ic !! "min" = Some (VReal 0) /\
       call_params ic !! "max" = Some (VReal 1))) ics.
Proof.
  intros Hrestart Hok Hn Hfuel.
  destruct (run_groups_Forall2
              (group_body this "add_ic" (all_var_names_of this))
              (fun _ ic =>
                 task_of_call ic = "add_ic" /\
                 call_params ic !! "block" =
                   match block this with
                   | Some b => Some (VStrings b)
                   | None => getValidParams (call_type ic) !! "block"
                   end /\
                 (jac_test this = true ->
                  call_type ic = "RandomIC" /\
                  call_params ic !! "min" = Some (VReal 0) /\
                  call_params ic !! "max" = Some (VReal 1)))
              (groups (_num_groups this)))
    as (ics & Hics & HP).
  { intros op. by apply group_body_add_ic_block. }
  exists ics. split; [|split].
  - rewrite act_run by done. f_equal.
    rewrite <- (app_nil_r ics). apply Emits_bind; [done|].
    apply temperature_part_silent. by repeat constructor.
  - by rewrite <- (Forall2_length _ _ _ HP), length_groups.
  - clear Hics. induction HP as [|i ic l ics' (_ & Hic) _ IH]; by constructor.
Qed.

(** ** Required parameters only *)

Lemma act_no_conflict_no_error (this : Config) (task : string) (fuel : nat)
    (h h' : Host) (o : Outcome unit) :
  jac_test this && isParamValid (nt_ic_function this) = false ->
  act fuel this task h = Some (h', o) -> o = Done tt.
Proof.
  intros Hok Hrun. destruct o as [[]|msg]; [done|]. exfalso.
  destruct (act_Orderly _ _ _ _ _ Hrun) as (_ & _ & Herr).
  pose proof (Herr msg eq_refl) as [Htask _]. clear Herr. subst task.
  unfold act in Hrun.
  destruct (push_names _ _ _ _ _) as [all_var_names|]; [|done].
  destruct (for_op _ _ _ _ _) as [[h1 [[]|msg1]]|] eqn:Hloop; [| |done].
  { injection Hrun as Htemp.
    by rewrite (temperature_part_silent this "add_ic") in Htemp by repeat constructor. }
  apply for_op_no_error in Hloop; [done|]. intros op h0.
  destruct (init_nts_from_file this) eqn:Hrestart.
  - eexists. by apply group_body_add_ic_restart.
  - destruct (group_body_add_ic this all_var_names op Hrestart Hok) as (ic & Hic & _).
    eexists. apply Hic.
Qed.

(** X15.  With the required parameters alone, every other parameter being
    left as [validParams] declares it: the constructor fails exactly when
    delayed neutrons are to be accounted for, since no precursor variable
    is named; no task ends in an error; and the tasks [add_bc],
    [check_copy_nodal_vars] and [copy_nodal_vars] leave the host as it is. *)
Theorem required_parameters_only (precursor_groups : N) (base : string)
    (temperature_var : list string) (groups : N) (exp_form delayed sss2 : bool)
    (task : string) (fuel : nat) (h : Host) :
  let this :=
    validParams precursor_groups base temperature_var groups exp_form delayed sss2 in
  (NtAction this h = (h, MooseError ConfigurationError) <-> delayed = true) /\
  (delayed = false -> NtAction this h = (h, Done this)) /\
  (forall h' o, act fuel this task h = Some (h', o) -> o = Done tt) /\
  (groups < UINT_MAX -> (N.to_nat groups < fuel)%nat ->
   act fuel this "add_bc" h = Some (h, Done tt) /\
   act fuel this "check_copy_nodal_vars" h = Some (h, Done tt) /\
   act fuel this "copy_nodal_vars" h = Some (h, Done tt)).
Proof.
  intros this. split; [|split; [|split]].
  - unfold NtAction. simpl. by destruct delayed.
  - by intros ->.
  - intros h' o. by apply act_no_conflict_no_error.
  - intros Hn Hfuel. split; [|split].
    + rewrite act_emits with (f := fun _ => []) (l := []); [|done..| |].
      * by rewrite bind_const_nil, submitted_nil.
      * intros op. by apply group_body_add_bc_none.
      * apply temperature_part_silent. by repeat constructor.
    + by rewrite act_check.
    + rewrite (act_emits this "copy_nodal_vars" fuel h _ _ Hn Hfuel
                 (group_body_copy this _) (temperature_part_copy this)).
      simpl. by rewrite bind_const_nil, submitted_nil.
Qed.

(** ** The constructor and the delayed-neutron source *)

Lemma delayed_source_of_group (this : Config) (all_var_names : list string) (op : N) :
  List.filter (is_kernel_of "DelayedNeutronSource") (kernel_calls this all_var_names op) =
  if account_delayed this
  then [addKernel "DelayedNeutronSource" ("DelayedNeutronSource_" ++ variableName this op)
          (delayedNeutronSourceParams this op (variableName this op))]
  else [].
Proof. unfold kernel_calls. by repeat case_match. Qed.

(** X16.  On an object the constructor has returned, task [add_kernel]
    registers no delayed-neutron source without delayed neutrons, and with
    them one per group, in the order of the groups: the factory's
    [DelayedNeutronSource] parameters with [variable] and [group_number]
    set for the group, [block] set from [pre_blocks] (not from [block]),
    [use_exp_form] set, then the temperature variable and the list of
    precursor variables, which the constructor has made sure is there, taken
    over in that order, and [num_precursor_groups] set last. *)
Theorem delayed_sources_of_constructed (params this : Config) (h0 h0' h : Host)
    (fuel : nat) :
  NtAction params h0 = (h0', Done this) ->
  _num_groups this < UINT_MAX ->
  (N.to_nat (_num_groups this) < fuel)%nat ->
  exists kernels,
    act fuel this "add_kernel" h = Some (submitted h kernels, Done tt) /\
    (account_delayed this = false ->
     List.filter (is_kernel_of "DelayedNeutronSource") kernels = []) /\
    (account_delayed this = true ->
     exists precursors,
       pre_concs this = Some precursors /\
       List.filter (is_kernel_of "DelayedNeutronSource") kernels =
         (fun i =>
            addKernel "DelayedNeutronSource"
              ("DelayedNeutronSource_" ++ variableName this i)
              (set "num_precursor_groups" (VUInt (num_precursor_groups this))
                 (applyParameter
                    (applyParameter
                       (set "use_exp_form" (VBool (use_exp_form this))
                          (set_if_valid "block" VStrings (pre_blocks this)
                             (set "group_number" (VUInt i)
                                (set "variable" (VString (variableName this i))
                                   (getValidParams "DelayedNeutronSource")))))
                       "temperature" (Some (VStrings (temperature this))))
                    "pre_concs" (Some (VStrings precursors)))))
           <$> groups (_num_groups this)).
Proof.
  intros Hctor Hn Hfuel. eexists. split; [by apply act_add_kernel|].
  rewrite filter_bind.
  rewrite (list_bind_ext _ _ _ _
             (delayed_source_of_group this (all_var_names_of this)) eq_refl).
  split.
  - intros ->. apply bind_const_nil.
  - intros Hdelayed. rewrite Hdelayed.
    unfold NtAction in Hctor.
    destruct (negb (isParamValid (pre_concs params)) && account_delayed params)
      eqn:Hguard; [done|].
    injection Hctor as _ ->.
    rewrite Hdelayed, andb_true_r in Hguard.
    destruct (pre_concs this) as [precursors|] eqn:Hpre; [|done].
    exists precursors. split; [done|].
    rewrite bind_single_fmap. apply list_fmap_ext. intros _ i _.
    unfold delayedNeutronSourceParams, applySpecificParameters. cbv zeta.
    cbn [foldl set_if_valid]. unfold _num_precursor_groups. do 2 f_equal.
    assert (parameters this !! "temperature" = Some (VStrings (temperature this)))
      as ->.
    { unfold parameters. rewrite !lookup_set_ne by done. apply lookup_set_eq. }
    assert (parameters this !! "pre_concs" = Some (VStrings precursors)) as ->.
    { unfold parameters. rewrite Hpre. cbn [set_if_valid].
      rewrite !lookup_set_ne by done. apply lookup_set_eq. }
    done.
Qed.

(** ** The loop counter *)

(** X10.  The loops of [act] count in 32 bits.  Below [4294967295] groups
    they end, and [act] returns once they have had fuel for one test more
    than there are groups.  At [num_groups = 4294967295] the test
    [op <= _num_groups] cannot fail, the counter wraps to zero, and [act]
    does not return whatever fuel it is given. *)
Theorem loop_counter_bound (this : Config) (task : string) (fuel : nat) (h : Host) :
  (_num_groups this < UINT_MAX -> (N.to_nat (_num_groups this) < fuel)%nat ->
   exists h' o, act fuel this task h = Some (h', o)) /\
  (_num_groups this = UINT_MAX -> act fuel this task h = None).
Proof.
  split.
  - intros Hn Hfuel. rewrite act_run by done.
    destruct ((run_groups _ _ ;; temperature_part this task) h) as [h' o].
    by exists h', o.
  - intros Hn. unfold act. rewrite Hn.
    by rewrite push_names_UINT_MAX.
Qed.

(** ** The vacuum boundary conditions *)




(** ** [eigen] outside task [add_kernel] *)

Lemma for_op_ext (body1 body2 : N -> Act unit) (n : N) :
  (forall op h, body1 op h = body2 op h) ->
  forall (fuel : nat) (op : N) (h : Host),
    for_op fuel op n body1 h = for_op fuel op n body2 h.
Proof.
  intros Hbody. induction fuel as [|fuel IH]; intros op h; cbn [for_op]; [done|].
  rewrite Hbody. destruct (op <=? n); [|done].
  by destruct (body2 op h) as [h' [[]|msg]].
Qed.

(** X18.  The [eigen] parameter is read in task [add_kernel] alone: under
    every task other than [add_kernel] and [add_variable] a run does to the
    host, and returns, the same whatever [eigen] is set to.  (Under
    [add_variable] the group variables are registered by the base class,
    which is handed all parameters.) *)
Theorem eigen_only_matters_to_kernels (b : bool) (this : Config) (task : string)
    (fuel : nat) (h : Host) :
  task <> "add_kernel" ->
  task <> "add_variable" ->
  act fuel (with_eigen b this) task h = act fuel this task h.
Proof.
  intros Hkernel Hvariable.
  apply String.eqb_neq in Hkernel. apply String.eqb_neq in Hvariable. unfold act.
  change (_num_groups (with_eigen b this)) with (_num_groups this).
  change (_var_name_base (with_eigen b this)) with (_var_name_base this).
  destruct (push_names _ _ _ _ _) as [all_var_names|]; [|done].
  rewrite (for_op_ext (group_body (with_eigen b this) task all_var_names)
                      (group_body this task all_var_names)).
  - destruct (for_op _ _ _ _ _) as [[h1 [[]|msg]]|]; [|done..].
    unfold temperature_part. rewrite Hvariable. reflexivity.
  - intros op h0. unfold group_body. rewrite Hkernel, Hvariable.
    change (when false ?m) with (mret tt : Act unit). reflexivity.
Qed.

End Extras.

(** * The theorems at the sample host *)

Lemma add_variable_descriptors_witness :
  exists temp_params,
    sample_act 3 sample_config "add_variable" empty_host =
      Some (submitted empty_host
              [addVariable "MooseVariable" "group1" ∅;
               addVariable "MooseVariable" "group2" ∅;
               addVariable "MooseVariable" "temp" temp_params],
            Done tt).
Proof.
  destruct (@add_variable_descriptors sample_framework sample_config 3 empty_host)
    as (temp_params & Hrun & _); [reflexivity | simpl; lia |].
  exists temp_params. exact Hrun.
Defined.

(** C2 as stated fails: the eigenvalue run is not the transient run without
    its time derivatives, the fission kernel of the first group differs. *)
Lemma eigen_changes_fission_kernel :
  eigen eigen_config = true /\
  calls_of (sample_act 3 eigen_config "add_kernel" empty_host) <>
  List.filter (fun c => negb (is_kernel_of "NtTimeDerivative" c))
    (calls_of (sample_act 3 (with_eigen false eigen_config) "add_kernel" empty_host)).
Proof.
  split; [done|]. intros E.
  apply (f_equal (fun l => match l !! 3%nat with
                           | Some (addKernel _ _ p) => p !! "extra_vector_tags"
                           | _ => None
                           end)) in E.
  vm_compute in E. discriminate.
Qed.

Lemma eigen_kernels_witness :
  exists transient eigenvalue,
    sample_act 3 (with_eigen false eigen_config) "add_kernel" empty_host =
      Some (submitted empty_host transient, Done tt) /\
    sample_act 3 eigen_config "add_kernel" empty_host =
      Some (submitted empty_host eigenvalue, Done tt) /\
    eigenvalue = transient ≫= eigen_view.
Proof.
  apply (@eigen_kernels sample_framework eigen_config 3 empty_host);
    [reflexivity | reflexivity | simpl; lia].
Defined.

Lemma add_kernel_in_scatter_witness :
  (exists kernels,
     sample_act 3 sample_config "add_kernel" empty_host =
       Some (submitted empty_host kernels, Done tt) /\
     length (List.filter (is_kernel_of "InScatter") kernels) = 2%nat) /\
  (exists kernels,
     sample_act 3 one_group_config "add_kernel" empty_host =
       Some (submitted empty_host kernels, Done tt) /\
     List.filter (is_kernel_of "InScatter") kernels = []).
Proof.
  split.
  - destruct (@add_kernel_in_scatter sample_framework sample_config 3 empty_host)
      as (kernels & Hrun & _ & Hmany); [reflexivity | simpl; lia |].
    exists kernels. split; [exact Hrun|].
    destruct Hmany as [_ Hlen]; [vm_compute; discriminate | exact Hlen].
  - destruct (@add_kernel_in_scatter sample_framework one_group_config 3 empty_host)
      as (kernels & Hrun & Hone & _); [reflexivity | simpl; lia |].
    exists kernels. split; [exact Hrun | apply Hone; reflexivity].
Defined.

Lemma constructor_validation_witness :
  NtAction delayed_without_pre_concs empty_host =
    (empty_host, MooseError ConfigurationError) /\
  NtAction delayed_config empty_host = (empty_host, Done delayed_config) /\
  NtAction sample_config empty_host = (empty_host, Done sample_config).
Proof.
  split; [|split].
  - apply (constructor_validation delayed_without_pre_concs empty_host); reflexivity.
  - apply (constructor_validation delayed_config empty_host). right. discriminate.
  - apply (constructor_validation sample_config empty_host). left. reflexivity.
Defined.

(** C5 as stated fails: with the neutron fields read from file the
    conflicting options raise no error; neither do they without groups. *)
Lemma conflict_unnoticed_on_restart :
  jac_test conflict_restart_config = true /\
  nt_ic_function conflict_restart_config = Some "ic_func" /\
  sample_act 3 conflict_restart_config "add_ic" empty_host = Some (empty_host, Done tt) /\
  jac_test conflict_no_group_config = true /\
  nt_ic_function conflict_no_group_config = Some "ic_func" /\
  sample_act 3 conflict_no_group_config "add_ic" empty_host = Some (empty_host, Done tt).
Proof. repeat split. Qed.

Lemma add_ic_conflict_witness :
  sample_act 3 conflict_config "add_ic" empty_host =
    Some (empty_host, MooseError ConflictingOptionError).
Proof.
  apply (@add_ic_conflict sample_framework conflict_config 3 empty_host);
    [reflexivity | reflexivity | reflexivity | vm_compute; discriminate
    | reflexivity | simpl; lia].
Defined.

(** C6 as stated fails: the neutron fields are not read from file, there are
    two groups, and yet no initial condition is submitted. *)
Lemma conflict_submits_no_ic :
  init_nts_from_file conflict_config = false /\
  _num_groups conflict_config = 2 /\
  sample_act 3 conflict_config "add_ic" empty_host =
    Some (empty_host, MooseError ConflictingOptionError) /\
  ~ Forall2 (is_ic_of conflict_config) (groups (_num_groups conflict_config))
      (calls_of (sample_act 3 conflict_config "add_ic" empty_host)).
Proof.
  split; [done|]. split; [done|]. split; [done|].
  intros HF. apply Forall2_length in HF. vm_compute in HF. discriminate.
Qed.

Lemma add_ic_descriptors_witness :
  (exists ics,
     sample_act 3 exp_config "add_ic" empty_host =
       Some (submitted empty_host ics, Done tt) /\
     Forall2 (is_ic_of exp_config) [1; 2] ics) /\
  sample_act 3 restart_config "add_ic" empty_host = Some (empty_host, Done tt).
Proof.
  split.
  - apply (@add_ic_descriptors sample_framework exp_config 3 empty_host);
      [reflexivity | simpl; lia | reflexivity | reflexivity].
  - apply (@add_ic_descriptors sample_framework restart_config 3 empty_host);
      [reflexivity | simpl; lia | reflexivity].
Defined.

Lemma add_ic_restart_skips_validation_witness :
  sample_act 3 conflict_restart_config "add_ic" empty_host =
    Some (empty_host, Done tt).
Proof.
  apply (@add_ic_restart_skips_validation sample_framework conflict_restart_config
           3 empty_host);
    [reflexivity | reflexivity | reflexivity | reflexivity | simpl; lia].
Defined.

Lemma exp_form_auxiliaries_witness :
  (exists fe_type subdomains params1 params2,
     sample_act 3 exp_config "add_aux_variable" empty_host =
       Some (submitted empty_host [addAuxVariable "group1_lin" fe_type subdomains;
                                   addAuxVariable "group2_lin" fe_type subdomains],
             Done tt) /\
     sample_act 3 exp_config "add_aux_kernel" empty_host =
       Some (submitted empty_host
               [addAuxKernel "Density" "Density_group1_lin" params1;
                addAuxKernel "Density" "Density_group2_lin" params2],
             Done tt) /\
     params1 !! "variable" = Some (VString "group1_lin") /\
     params2 !! "variable" = Some (VString "group2_lin")) /\
  sample_act 3 sample_config "add_aux_variable" empty_host = Some (empty_host, Done tt) /\
  sample_act 3 sample_config "add_aux_kernel" empty_host = Some (empty_host, Done tt).
Proof.
  split.
  - apply (@exp_form_auxiliaries sample_framework exp_config 3 empty_host);
      [reflexivity | reflexivity | lia].
  - apply (@exp_form_auxiliaries sample_framework sample_config 3 empty_host);
      [reflexivity | reflexivity | simpl; lia].
Defined.

Lemma add_bc_descriptors_witness :
  (exists bcs,
     sample_act 3 vacuum_config "add_bc" empty_host =
       Some (submitted empty_host bcs, Done tt) /\
     Forall2 (is_vacuum_bc_of vacuum_config ["left"; "right"]) [1; 2] bcs) /\
  sample_act 3 sample_config "add_bc" empty_host = Some (empty_host, Done tt).
Proof.
  split.
  - apply (@add_bc_descriptors sample_framework vacuum_config 3 empty_host);
      [reflexivity | simpl; lia | reflexivity].
  - apply (@add_bc_descriptors sample_framework sample_config 3 empty_host);
      [reflexivity | simpl; lia | reflexivity].
Defined.

(** C9 as stated fails: the temperature is to be read from file, but the
    action does not create the temperature variable, and the restart flag
    stays down. *)
Lemma temperature_restart_not_signalled :
  init_temperature_from_file temperature_restart_only_config = true /\
  sample_act 3 temperature_restart_only_config "check_copy_nodal_vars" empty_host =
    Some (empty_host, Done tt) /\
  exodusFileRestart empty_host = false /\
  init_nts_from_file restart_no_group_config = true /\
  sample_act 3 restart_no_group_config "check_copy_nodal_vars" empty_host =
    Some (empty_host, Done tt).
Proof. repeat split. Qed.

Lemma check_restart_witness :
  sample_act 3 restart_config "check_copy_nodal_vars" empty_host =
    Some ({| calls := []; exodusFileRestart := true |}, Done tt) /\
  sample_act 3 restart_config "check_copy_nodal_vars"
             {| calls := []; exodusFileRestart := true |} =
    Some ({| calls := []; exodusFileRestart := true |}, Done tt).
Proof.
  destruct (@check_restart sample_framework restart_config 3 empty_host)
    as (Hfirst & Hagain & _); [reflexivity | simpl; lia |].
  split; [exact Hfirst | exact Hagain].
Defined.

Lemma act_appends_calls_of_task_witness :
  exists l,
    calls (submitted empty_host
             [addVariableToCopy "group1" "group1" "LATEST";
              addVariableToCopy "group2" "group2" "LATEST";
              addVariableToCopy "temp" "temp" "LATEST"]) =
      (calls empty_host ++ l)%list /\
    Forall (fun c => task_of_call c = "copy_nodal_vars") l.
Proof.
  apply (@act_appends_calls_of_task sample_framework full_restart_config
           "copy_nodal_vars" 3 empty_host _ (Done tt)).
  reflexivity.
Defined.

Lemma restart_flag_only_raised_by_check_witness :
  ("add_kernel" <> "check_copy_nodal_vars" ->
   exodusFileRestart (submitted empty_host
                        (calls_of (sample_act 3 sample_config "add_kernel" empty_host))) =
   exodusFileRestart empty_host) /\
  (exodusFileRestart empty_host = true ->
   exodusFileRestart (submitted empty_host
                        (calls_of (sample_act 3 sample_config "add_kernel" empty_host))) =
   true).
Proof.
  apply (@restart_flag_only_raised_by_check sample_framework sample_config
           "add_kernel" 3 empty_host _ (Done tt)).
  reflexivity.
Defined.

Lemma act_error_is_ic_conflict_witness :
  "add_ic" = "add_ic" /\ ConflictingOptionError = ConflictingOptionError /\
  jac_test conflict_config = true /\
  isParamValid (nt_ic_function conflict_config) = true /\
  init_nts_from_file conflict_config = false /\
  1 <= _num_groups conflict_config /\ empty_host = empty_host.
Proof.
  apply (@act_error_is_ic_conflict sample_framework conflict_config "add_ic" 3
           empty_host empty_host ConflictingOptionError).
  reflexivity.
Defined.

Lemma copy_nodal_vars_calls_witness :
  sample_act 3 full_restart_config "copy_nodal_vars" empty_host =
    Some (submitted empty_host
            [addVariableToCopy "group1" "group1" "LATEST";
             addVariableToCopy "group2" "group2" "LATEST";
             addVariableToCopy "temp" "temp" "LATEST"],
          Done tt).
Proof.
  apply (@copy_nodal_vars_calls sample_framework full_restart_config 3 empty_host);
    [reflexivity | simpl; lia].
Defined.

Lemma unregistered_task_is_skipped_witness :
  sample_act 3 no_group_config "add_postprocessor" empty_host =
    Some (empty_host, Done tt) /\
  sample_act 3 exp_config "setup_mesh" empty_host = Some (empty_host, Done tt).
Proof.
  split.
  - apply (@unregistered_task_is_skipped sample_framework no_group_config
             "add_postprocessor" 3 empty_host);
      [not_listed | reflexivity | simpl; lia].
  - apply (@unregistered_task_is_skipped sample_framework exp_config
             "setup_mesh" 3 empty_host);
      [not_listed | reflexivity | simpl; lia].
Defined.

Lemma no_group_no_object_witness :
  sample_act 1 no_group_config "add_variable" empty_host =
    Some (submitted empty_host [@temperatureVariable sample_framework no_group_config "temp"],
          Done tt) /\
  sample_act 1 no_group_config "add_ic" empty_host = Some (empty_host, Done tt).
Proof.
  destruct (@no_group_no_object sample_framework no_group_config "add_ic" 1 empty_host)
    as [Hvar Hic]; [reflexivity | lia |].
  split; [exact Hvar | apply Hic; not_listed].
Defined.

Lemma exp_form_auxiliaries_per_group_witness :
  exists variables kernels,
    sample_act 4 three_group_exp_config "add_aux_variable" empty_host =
      Some (submitted empty_host variables, Done tt) /\
    sample_act 4 three_group_exp_config "add_aux_kernel" empty_host =
      Some (submitted empty_host kernels, Done tt) /\
    length variables = 3%nat /\ length kernels = 3%nat.
Proof.
  destruct (@exp_form_auxiliaries_per_group sample_framework three_group_exp_config
              4 empty_host)
    as (variables & kernels & Hvar & Hker & HFv & HFk);
    [reflexivity | reflexivity | simpl; lia |].
  exists variables, kernels. split; [exact Hvar|]. split; [exact Hker|].
  split.
  - rewrite <- (Forall2_length _ _ _ HFv). reflexivity.
  - rewrite <- (Forall2_length _ _ _ HFk). reflexivity.
Defined.

Lemma add_kernel_schedule_witness :
  exists kernels,
    sample_act 3 delayed_eigen_config "add_kernel" empty_host =
      Some (submitted empty_host kernels, Done tt) /\
    (fun c => (call_type c, call_name c)) <$> kernels =
      [("GroupDiffusion", "GroupDiffusion_group1"); ("SigmaR", "SigmaR_group1");
       ("InScatter", "InScatter_group1");
       ("CoupledFissionKernel", "CoupledFissionKernel_group1");
       ("DelayedNeutronSource", "DelayedNeutronSource_group1");
       ("GroupDiffusion", "GroupDiffusion_group2"); ("SigmaR", "SigmaR_group2");
       ("InScatter", "InScatter_group2");
       ("CoupledFissionKernel", "CoupledFissionKernel_group2");
       ("DelayedNeutronSource", "DelayedNeutronSource_group2")] /\
    length kernels = 10%nat.
Proof.
  apply (@add_kernel_schedule sample_framework delayed_eigen_config 3 empty_host);
    [reflexivity | simpl; lia].
Defined.

Lemma add_kernel_coupling_witness :
  exists kernels,
    sample_act 3 delayed_eigen_config "add_kernel" empty_host =
      Some (submitted empty_host kernels, Done tt) /\
    Forall (fun c =>
      call_type c = "InScatter" ->
      call_params c !! "group_fluxes" = Some (VStrings ["group1"; "group2"])) kernels.
Proof.
  destruct (@add_kernel_coupling sample_framework delayed_eigen_config 3 empty_host)
    as (kernels & Hrun & _ & Hall); [reflexivity | simpl; lia |].
  exists kernels. split; [exact Hrun|].
  eapply Forall_impl; [exact Hall|].
  intros c (Hin & _) Htype. apply (Hin Htype).
Defined.

Lemma add_variable_names_distinct_witness :
  exists variables,
    sample_act 3 sample_config "add_variable" empty_host =
      Some (submitted empty_host variables, Done tt) /\
    NoDup (call_name <$> variables).
Proof.
  apply (@add_variable_names_distinct sample_framework sample_config 3 empty_host);
    [reflexivity | simpl; lia].
Defined.

Lemma add_kernel_names_distinct_witness :
  exists kernels,
    sample_act 3 delayed_eigen_config "add_kernel" empty_host =
      Some (submitted empty_host kernels, Done tt) /\
    NoDup (call_name <$> kernels).
Proof.
  apply (@add_kernel_names_distinct sample_framework delayed_eigen_config 3 empty_host);
    [reflexivity | simpl; lia].
Defined.

Lemma temperature_variable_registered_witness :
  exists group_variables params,
    sample_act 3 sample_config "add_variable" empty_host =
      Some (submitted empty_host
              (group_variables ++ [addVariable "MooseVariable" "temp" params])%list,
            Done tt) /\
    params !! "family" = Some (VEnum "L2_LAGRANGE") /\
    params !! "scaling" = Some (VReals [1%Q]).
Proof.
  destruct (@temperature_variable_registered sample_framework sample_config 3 empty_host)
    as (group_variables & params & Hrun & _ & _ & Hfamily & Hscaling);
    [reflexivity | reflexivity | simpl; lia |].
  exists group_variables, params.
  split; [exact Hrun|]. split; [exact Hfamily | exact Hscaling].
Defined.

Lemma add_ic_parameters_witness :
  exists ics,
    sample_act 3 exp_config "add_ic" empty_host =
      Some (submitted empty_host ics, Done tt) /\
    length ics = 2%nat.
Proof.
  destruct (@add_ic_parameters sample_framework exp_config 3 empty_host)
    as (ics & Hrun & Hlen & _);
    [reflexivity | reflexivity | reflexivity | simpl; lia |].
  exists ics. split; [exact Hrun | exact Hlen].
Defined.

Lemma required_parameters_only_witness :
  NtAction (validParams 6 "group" ["temp"] 2 false false true) empty_host =
    (empty_host, Done (validParams 6 "group" ["temp"] 2 false false true)) /\
  sample_act 3 (validParams 6 "group" ["temp"] 2 false false true) "add_bc" empty_host =
    Some (empty_host, Done tt).
Proof.
  destruct (@required_parameters_only sample_framework 6 "group" ["temp"] 2
              false false true "add_ic" 3 empty_host)
    as (_ & Hctor & _ & Htasks).
  split; [apply Hctor; reflexivity|].
  destruct Htasks as (Hbc & _); [reflexivity | simpl; lia | exact Hbc].
Defined.

Lemma delayed_sources_of_constructed_witness :
  exists kernels,
    sample_act 3 delayed_config "add_kernel" empty_host =
      Some (submitted empty_host kernels, Done tt) /\
    call_name <$> List.filter (is_kernel_of "DelayedNeutronSource") kernels =
      ["DelayedNeutronSource_group1"; "DelayedNeutronSource_group2"] /\
    Forall (fun c => call_params c !! "pre_concs" = Some (VStrings ["pre1"; "pre2"]))
           (List.filter (is_kernel_of "DelayedNeutronSource") kernels).
Proof.
  destruct (@delayed_sources_of_constructed sample_framework delayed_config
              delayed_config empty_host empty_host empty_host 3)
    as (kernels & Hrun & _ & Hdelayed); [reflexivity | reflexivity | simpl; lia |].
  exists kernels. split; [exact Hrun|].
  destruct Hdelayed as (precursors & Hpre & ->); [reflexivity|].
  injection Hpre as <-.
  split; [reflexivity|]. repeat constructor.
Defined.

Lemma loop_counter_bound_witness :
  (exists h' o, sample_act 3 sample_config "add_kernel" empty_host = Some (h', o)) /\
  sample_act 3 huge_config "add_kernel" empty_host = None.
Proof.
  split.
  - apply (@loop_counter_bound sample_framework sample_config "add_kernel" 3 empty_host);
      [reflexivity | simpl; lia].
  - apply (@loop_counter_bound sample_framework huge_config "add_kernel" 3 empty_host).
    reflexivity.
Defined.


Lemma eigen_only_matters_to_kernels_witness :
  sample_act 3 (with_eigen true exp_config) "add_aux_kernel" empty_host =
  sample_act 3 exp_config "add_aux_kernel" empty_host.
Proof.
  apply (@eigen_only_matters_to_kernels sample_framework true exp_config
           "add_aux_kernel" 3 empty_host); discriminate.
Defined.
